(** * plane-tracker-rgb-pi: display driver and clock scene

    A shallow embedding of [its-a-plane-python/config.py],
    [its-a-plane-python/display/__init__.py] and
    [its-a-plane-python/scenes/clock.py].

    Conventions.
    - Python [int] values are [Z].  Readings of [time.time()] are [Z] seconds;
      naive UTC datetimes ([datetime.utcnow()], the results of
      [datetime.strptime]) are [Z] microseconds on one common time line, so
      that [(a - b).total_seconds() <= 0] is [a - b <= 0].
    - A reading of [datetime.now()] is a [DateTime] record, since the code
      looks at its calendar date, hour and minute.
    - Every call to the LED matrix, to [time.sleep], to [print] and to
      [os.system] is recorded, in program order, in a list of [Event]s.
    - A method that can raise returns a [result]; a clock, a file system or
      a network answer the code reads is an explicit argument. *)

From Stdlib Require Import ZArith List String Ascii Bool Lia DecimalString.
Import ListNotations.
Local Open Scope string_scope.
Local Open Scope list_scope.
Local Open Scope Z_scope.

(** ** Python values shared by the three files *)

(** Exceptions the modelled code can raise. *)
Inductive Exn : Type :=
| TypeError
| ValueError
| UnboundLocalError
| AttributeError
| FetchError (msg : string).

Inductive result (A : Type) : Type :=
| Ok (a : A)
| Raise (e : Exn).
Arguments Ok {A} a.
Arguments Raise {A} e.

Definition bind {A B : Type} (m : result A) (k : A -> result B) : result B :=
  match m with
  | Ok a => k a
  | Raise e => Raise e
  end.

Notation "x <- m ;; k" := (bind m (fun x => k))
  (at level 61, m at next level, right associativity).
Notation "' pat <- m ;; k" := (bind m (fun x => match x with pat => k end))
  (at level 61, pat pattern, m at next level, right associativity).

(** [setup.colours], as far as the clock scene names them. *)
Inductive Colour : Type := BLACK | LIGHT_ORANGE | LIGHT_BLUE.

(** [setup.fonts], as far as the clock scene names them. *)
Inductive Font : Type := large_bold.

(** A PIL image object; only its identity matters to the driver. *)
Inductive Image : Type := PILImage (name : string).

(** One call that leaves the program. *)
Inductive Event : Type :=
| Clear                                   (* offscreen_canvas.Clear() *)
| SetPixel (x y r g b : Z)
| SetImage (img : Image) (x_offset y_offset : Z) (unsafe : option bool)
| DrawLine (x0 y0 x1 y1 : Z) (colour : Colour)
| SwapOnVSync                             (* matrix.SwapOnVSync(canvas) *)
| SetBrightness (level : Z)               (* matrix.brightness = level *)
| DrawText (font : Font) (x y : Z) (colour : Colour) (text : string)
| Sleep (seconds : Z)                     (* time.sleep(seconds) *)
| Print (line : string)
| System (command : string)               (* os.system(command) *)
| StartThread (target : string).          (* threading.Thread(...).start() *)

(** A reading of [datetime.now()]. *)
Record DateTime : Type := mkDateTime {
  year : Z; month : Z; day : Z; hour : Z; minute : Z; second : Z
}.

(** [now.date()] *)
Definition date (now : DateTime) : Z * Z * Z := (year now, month now, day now).

Definition date_eqb (a b : Z * Z * Z) : bool :=
  let '(y1, m1, d1) := a in
  let '(y2, m2, d2) := b in
  (y1 =? y2) && (m1 =? m2) && (d1 =? d2).

(** [str(n)] for an integer. *)
Definition str (n : Z) : string := NilZero.string_of_int (Z.to_int n).

(** [%02d]-style and [%2d]-style fields of [strftime]. *)
Definition pad2 (fill : ascii) (n : Z) : string :=
  if (0 <=? n) && (n <? 10) then String fill (str n) else str n.

Definition pad4 (n : Z) : string :=
  if (0 <=? n) && (n <? 10) then "000" ++ str n
  else if (0 <=? n) && (n <? 100) then "00" ++ str n
  else if (0 <=? n) && (n <? 1000) then "0" ++ str n
  else str n.

(** [now.strftime('%H:%M')] *)
Definition strftime_HM (now : DateTime) : string :=
  pad2 "0" (hour now) ++ ":" ++ pad2 "0" (minute now).

(** [now.strftime('%l:%M')]: the hour on the 12-hour clock, blank padded. *)
Definition hour12 (h : Z) : Z :=
  let r := h mod 12 in if r =? 0 then 12 else r.

Definition strftime_lM (now : DateTime) : string :=
  pad2 " " (hour12 (hour now)) ++ ":" ++ pad2 "0" (minute now).

(** [now.strftime('%Y-%m-%d')] *)
Definition strftime_Ymd (now : DateTime) : string :=
  pad4 (year now) ++ "-" ++ pad2 "0" (month now) ++ "-" ++ pad2 "0" (day now).

(** ** config.py *)

Record Config : Type := mkConfig {
  BRIGHTNESS : Z;
  LED_ROWS : Z;
  LED_COLS : Z;
  LED_CHAIN : Z;
  DIM_BRIGHTNESS : Z;
  DIM_START : Z;
  DIM_END : Z;
  DELTA_LOGO_ENABLED : bool;
  DELTA_LOGO_PATH : string;
  DELTA_LOGO_INTERVAL : Z;
  DELTA_LOGO_DURATION : Z;
  AUTO_SHUTDOWN_ENABLED : bool;
  AUTO_SHUTDOWN_TIME : string
}.

(** The values the file sets. *)
Definition config_py : Config := {|
  BRIGHTNESS := 50;
  LED_ROWS := 64;
  LED_COLS := 128;
  LED_CHAIN := 1;
  DIM_BRIGHTNESS := 15;
  DIM_START := 22;
  DIM_END := 7;
  DELTA_LOGO_ENABLED := true;
  DELTA_LOGO_PATH := "images/delta_logo.ppm";
  DELTA_LOGO_INTERVAL := 30;
  DELTA_LOGO_DURATION := 5;
  AUTO_SHUTDOWN_ENABLED := false;
  AUTO_SHUTDOWN_TIME := "23:30"
|}.

(** ** Python string functions used on AUTO_SHUTDOWN_TIME

    A Python [str] is modelled by a [string] of code points below 256. *)

(** [s.split(":")]: every colon separates, empty pieces are kept. *)
Fixpoint split_colon (s : string) : list string :=
  match s with
  | EmptyString => [EmptyString]
  | String c rest =>
      if Ascii.eqb c ":" then EmptyString :: split_colon rest
      else match split_colon rest with
           | piece :: pieces => String c piece :: pieces
           | [] => [String c EmptyString]
           end
  end.

(** The code points below 256 that [int] strips as white space: the six
    ASCII ones, and the two above 127 that it first turns into a blank. *)
Definition is_space (c : ascii) : bool :=
  let n := N_of_ascii c in
  (((9 <=? n) && (n <=? 13)) || (n =? 32) || (n =? 133) || (n =? 160))%N.

Definition is_digit (c : ascii) : bool :=
  let n := N_of_ascii c in ((48 <=? n) && (n <=? 57))%N.

Definition digit_value (c : ascii) : Z := Z.of_N (N_of_ascii c) - 48.

Fixpoint lstrip (s : string) : string :=
  match s with
  | EmptyString => EmptyString
  | String c rest => if is_space c then lstrip rest else s
  end.

Fixpoint rstrip (s : string) : string :=
  match s with
  | EmptyString => EmptyString
  | String c rest =>
      match rstrip rest with
      | EmptyString => if is_space c then EmptyString else String c EmptyString
      | kept => String c kept
      end
  end.

(** The digits of an integer literal: digits, with single underscores
    allowed between two digits.  The result is the value and the number of
    digits read. *)
Fixpoint int_digits (s : string) (acc count : Z) (after_digit : bool)
  : option (Z * Z) :=
  match s with
  | EmptyString => if after_digit then Some (acc, count) else None
  | String c rest =>
      if is_digit c
      then int_digits rest (10 * acc + digit_value c) (count + 1) true
      else if Ascii.eqb c "_" then
        if after_digit then int_digits rest acc count false else None
      else None
  end.

(** The limit on the length of a literal: [max_str_digits] is the
    interpreter's [sys.get_int_max_str_digits()], 0 when it has no limit;
    literals of at most 640 digits are never refused. *)
Definition over_limit (max_str_digits count : Z) : bool :=
  (640 <? count) && (0 <? max_str_digits) && (max_str_digits <? count).

(** [int(s)] in base ten; [None] stands for [ValueError]. *)
Definition int (max_str_digits : Z) (s : string) : option Z :=
  match rstrip (lstrip s) with
  | EmptyString => None
  | String c digits =>
      let literal :=
        if Ascii.eqb c "+" || Ascii.eqb c "-" then digits
        else String c digits in
      match int_digits literal 0 0 false with
      | Some (value, count) =>
          if over_limit max_str_digits count then None
          else if Ascii.eqb c "-" then Some (- value)
          else Some value
      | None => None
      end
  end.

(** [shutdown_hour, shutdown_minute = map(int, AUTO_SHUTDOWN_TIME.split(":"))];
    [None] stands for the [ValueError] of a failed conversion or of an
    unpacking of fewer or more than two values. *)
Definition parse_shutdown_time (max_str_digits : Z) (s : string)
  : option (Z * Z) :=
  match map (int max_str_digits) (split_colon s) with
  | [Some shutdown_hour; Some shutdown_minute] =>
      Some (shutdown_hour, shutdown_minute)
  | _ => None
  end.

(** ** display/__init__.py *)

(** The object state of [Display] that its methods read and write.
    [matrix_brightness] is [self.matrix.brightness]. *)
Record Display : Type := mkDisplay {
  matrix_brightness : Z;
  delta_logo_image : option Image;
  showing_logo : bool;
  _last_logo_time : Z
}.

(** What [_load_delta_logo] finds on disk: no file, a file on which the
    [try] block raises, or a file from which it builds [background] after
    resizing the logo to [new_width] x [new_height]. *)
Inductive LogoFile : Type :=
| NotFound
| LoadRaises (e : string)
| Loaded (new_width new_height : Z) (background : Image).

(** How a call ends. *)
Inductive Exit : Type :=
| Returned
| Raised (e : Exn)
| Running.           (* still inside [while True] when the readings end *)

Section DisplayMethods.

Variable cfg : Config.

(** The interpreter's limit on integer literals, see [over_limit]. *)
Variable max_str_digits : Z.

(** [self.width] and [self.height]. *)
Definition width : Z := LED_COLS cfg * LED_CHAIN cfg.
Definition height : Z := LED_ROWS cfg.

Definition swap_frame : list Event := [SwapOnVSync].

Definition clear : list Event := [Clear].

Definition set_pixel (x y r g b : Z) : list Event := [SetPixel x y r g b].

(** [SetImage] gets the [unsafe] argument only when it is true. *)
Definition set_image (image : Image) (x_offset y_offset : Z) (unsafe : bool)
  : list Event :=
  if unsafe
  then [SetImage image x_offset y_offset (Some unsafe)]
  else [SetImage image x_offset y_offset None].

Definition draw_text (font : Font) (x y : Z) (color : Colour) (text : string)
  : list Event :=
  [DrawText font x y color text].

Definition draw_line (x0 y0 x1 y1 : Z) (color : Colour) : list Event :=
  [DrawLine x0 y0 x1 y1 color].

(** *** Brightness and dimming *)

Definition is_dim (hour : Z) : bool :=
  if DIM_START cfg >? DIM_END cfg
  then (hour >=? DIM_START cfg) || (hour <? DIM_END cfg)
  else (DIM_START cfg <=? hour) && (hour <? DIM_END cfg).

Definition target (hour : Z) : Z :=
  if is_dim hour then DIM_BRIGHTNESS cfg else BRIGHTNESS cfg.

Definition update_brightness (now : DateTime) (self : Display)
  : Display * list Event :=
  let target := target (hour now) in
  if negb (matrix_brightness self =? target)
  then ({| matrix_brightness := target;
           delta_logo_image := delta_logo_image self;
           showing_logo := showing_logo self;
           _last_logo_time := _last_logo_time self |},
        [SetBrightness target])
  else (self, []).

(** *** Delta logo *)

(** [logo_path] is [os.path.join(script_dir, DELTA_LOGO_PATH)]. *)
Definition _load_delta_logo (logo_path : string) (file : LogoFile)
           (self : Display) : Display * list Event :=
  match file with
  | NotFound =>
      (self,
       [Print ("[WARNING] Delta logo not found at " ++ logo_path);
        Print "          Delta logo cycling is disabled."])
  | Loaded new_width new_height background =>
      ({| matrix_brightness := matrix_brightness self;
          delta_logo_image := Some background;
          showing_logo := showing_logo self;
          _last_logo_time := _last_logo_time self |},
       [Print ("[INFO] Delta logo loaded: " ++ str new_width ++ "x"
               ++ str new_height ++ ", centered on " ++ str width ++ "x"
               ++ str height ++ " canvas")])
  | LoadRaises e =>
      ({| matrix_brightness := matrix_brightness self;
          delta_logo_image := None;
          showing_logo := showing_logo self;
          _last_logo_time := _last_logo_time self |},
       [Print ("[ERROR] Failed to load Delta logo: " ++ e)])
  end.

(** [now] is the reading of [time.time()]. *)
Definition should_show_logo (now : Z) (self : Display) : bool :=
  if negb (DELTA_LOGO_ENABLED cfg)
     || match delta_logo_image self with None => true | Some _ => false end
  then false
  else if now - _last_logo_time self >=? DELTA_LOGO_INTERVAL cfg then true
  else false.

(** [now] is the reading of [time.time()] taken inside the method.  The
    state is the one the method returns with: [showing_logo] is true from
    its first statement to its last, and stays true if a callee raises on
    the way, which is not modelled. *)
Definition show_delta_logo (now : Z) (self : Display)
  : Display * list Event :=
  match delta_logo_image self with
  | None => (self, [])
  | Some image =>
      ({| matrix_brightness := matrix_brightness self;
          delta_logo_image := Some image;
          showing_logo := false;
          _last_logo_time := now |},
       clear ++ set_image image 0 0 false ++ swap_frame
       ++ [Sleep (DELTA_LOGO_DURATION cfg)])
  end.

(** *** Auto-shutdown *)

Definition _start_shutdown_scheduler : list Event :=
  [StartThread "_shutdown_loop";
   Print ("[INFO] Auto-shutdown scheduled for " ++ AUTO_SHUTDOWN_TIME cfg)].

(** One pass through the body of [while True], up to the reset of the
    flag: [now] is the reading of [datetime.now()], the boolean is
    [shutdown_triggered]. *)
Definition poll (shutdown_hour shutdown_minute : Z) (now : DateTime)
           (shutdown_triggered : bool) : list Event * bool :=
  let '(events, shutdown_triggered) :=
    if (hour now =? shutdown_hour) && (minute now =? shutdown_minute)
       && negb shutdown_triggered
    then ([Print ("[INFO] Auto-shutdown triggered at " ++ strftime_HM now)]
          ++ clear ++ swap_frame
          ++ [Sleep 2; System "sudo shutdown -h now"],
          true)
    else ([], shutdown_triggered) in
  if negb (minute now =? shutdown_minute)
  then (events, false)
  else (events, shutdown_triggered).

(** The loop over the successive readings of [datetime.now()].  Each pass
    ends with [time.sleep(30)] and the call [self.play()]; [play] is how
    that call ends on the object at hand.  [shutdown_triggered] is a
    local variable, out of reach of [play].  The [except KeyboardInterrupt]
    clause that follows the loop in the file belongs to no [try] and is
    left out. *)
Fixpoint shutdown_polls (shutdown_hour shutdown_minute : Z)
         (play : result unit) (readings : list DateTime)
         (shutdown_triggered : bool) : list Event * Exit :=
  match readings with
  | [] => ([], Running)
  | now :: later =>
      let '(events, shutdown_triggered) :=
        poll shutdown_hour shutdown_minute now shutdown_triggered in
      match play with
      | Raise e => (events ++ [Sleep 30], Raised e)
      | Ok _ =>
          let '(rest, exit) :=
            shutdown_polls shutdown_hour shutdown_minute play later
                           shutdown_triggered in
          (events ++ [Sleep 30] ++ rest, exit)
      end
  end.

Definition _shutdown_loop (play : result unit) (readings : list DateTime)
  : list Event * Exit :=
  match parse_shutdown_time max_str_digits (AUTO_SHUTDOWN_TIME cfg) with
  | None =>
      ([Print ("[ERROR] Invalid AUTO_SHUTDOWN_TIME: "
               ++ AUTO_SHUTDOWN_TIME cfg)],
       Returned)
  | Some (shutdown_hour, shutdown_minute) =>
      shutdown_polls shutdown_hour shutdown_minute play readings false
  end.

(** *** Construction *)

Definition __init__ (logo_path : string) (file : LogoFile)
  : Display * list Event :=
  let self := {| matrix_brightness := BRIGHTNESS cfg;
                 delta_logo_image := None;
                 showing_logo := false;
                 _last_logo_time := 0 |} in
  let '(self, loading) :=
    if DELTA_LOGO_ENABLED cfg
    then _load_delta_logo logo_path file self
    else (self, []) in
  (self,
   loading
   ++ (if AUTO_SHUTDOWN_ENABLED cfg then _start_shutdown_scheduler else [])).

End DisplayMethods.

(** The public and scheduler-facing calls on a [Display], for reasoning
    about everything that can happen to one after construction. *)
Inductive Call : Type :=
| call_swap_frame
| call_clear
| call_set_pixel (x y r g b : Z)
| call_set_image (image : Image) (x_offset y_offset : Z) (unsafe : bool)
| call_draw_text (font : Font) (x y : Z) (color : Colour) (text : string)
| call_draw_line (x0 y0 x1 y1 : Z) (color : Colour)
| call_update_brightness (now : DateTime)
| call_should_show_logo (now : Z)
| call_show_delta_logo (now : Z).

(** The effect of one call: the new state, the events, and the answer when
    the call is [should_show_logo]. *)
Definition perform (cfg : Config) (c : Call) (self : Display)
  : Display * list Event * option bool :=
  match c with
  | call_swap_frame => (self, swap_frame, None)
  | call_clear => (self, clear, None)
  | call_set_pixel x y r g b => (self, set_pixel x y r g b, None)
  | call_set_image image x y unsafe =>
      (self, set_image image x y unsafe, None)
  | call_draw_text font x y color text =>
      (self, draw_text font x y color text, None)
  | call_draw_line x0 y0 x1 y1 color =>
      (self, draw_line x0 y0 x1 y1 color, None)
  | call_update_brightness now =>
      let '(self, events) := update_brightness cfg now self in
      (self, events, None)
  | call_should_show_logo now =>
      (self, [], Some (should_show_logo cfg now self))
  | call_show_delta_logo now =>
      let '(self, events) := show_delta_logo cfg now self in
      (self, events, None)
  end.

(** A sequence of calls: final state, all events, all answers of
    [should_show_logo] in order. *)
Fixpoint perform_all (cfg : Config) (calls : list Call) (self : Display)
  : Display * list Event * list bool :=
  match calls with
  | [] => (self, [], [])
  | c :: later =>
      let '(self, events, answer) := perform cfg c self in
      let '(self, events', answers) := perform_all cfg later self in
      (self, events ++ events',
       match answer with Some b => b :: answers | None => answers end)
  end.

(** ** scenes/clock.py *)

Definition CLOCK_FONT : Font := large_bold.
Definition CLOCK_POSITION : Z * Z := (0, 11).
Definition DAY_COLOUR : Colour := LIGHT_ORANGE.
Definition NIGHT_COLOUR : Colour := LIGHT_BLUE.

(** One entry of the forecast, with the three strings the scene reads:
    [day['startTime']], [day['values']['sunriseTime']] and
    [day['values']['sunsetTime']]. *)
Record Day : Type := mkDay {
  startTime : string;
  sunriseTime : string;
  sunsetTime : string
}.

(** How the call [grab_forecast()] ends: it raises, or it returns [None],
    or it returns a list of entries. *)
Inductive Forecast : Type :=
| grab_raises (e : Exn)
| grab_none
| grab_returns (days : list Day).

(** The object state of [ClockScene]; [_data] is the flight list the scene
    shares with the tracker. *)
Record ClockScene : Type := mkClockScene {
  _last_logo_check : Z;
  _last_time : option string;
  today_sunrise : option Z;
  today_sunset : option Z;
  last_fetch_date : option (Z * Z * Z);
  _data : list string
}.

(** What one call of [clock] reads from outside: [datetime.now()] in
    [clock], [datetime.now()] in [calculate_sunrise_sunset], the two
    [datetime.utcnow()] of the two subtractions, and the forecast service. *)
Record Readings : Type := mkReadings {
  clock_now : DateTime;
  fetch_now : DateTime;
  utcnow_sunrise : Z;
  utcnow_sunset : Z;
  forecast : Forecast
}.

Definition ClockScene__init__ : ClockScene := {|
  _last_logo_check := 0;
  _last_time := None;
  today_sunrise := None;
  today_sunset := None;
  last_fetch_date := None;
  _data := []
|}.

(** Truth value of [self._last_time]: [None] and the empty string are false. *)
Definition truthy (s : option string) : bool :=
  match s with
  | None => false
  | Some text => negb (String.eqb text "")
  end.

Section ClockSceneMethods.

(** [datetime.strptime(text, '%Y-%m-%dT%H:%M:%SZ')]; [None] stands for its
    [ValueError]. *)
Variable strptime : string -> option Z.

(** [CLOCK_FORMAT], imported from the configuration. *)
Variable CLOCK_FORMAT : string.

Definition parse_time (text : string) : result Z :=
  match strptime text with
  | Some t => Ok t
  | None => Raise ValueError
  end.

(** The [for day in forecast] loop: every entry for today's date
    overwrites the cache. *)
Fixpoint scan_forecast (now : DateTime) (days : list Day) (self : ClockScene)
  : result ClockScene :=
  match days with
  | [] => Ok self
  | day :: later =>
      let forecast_date := substring 0 10 (startTime day) in
      if String.eqb forecast_date (strftime_Ymd now) then
        utc_sunrise <- parse_time (sunriseTime day) ;;
        utc_sunset <- parse_time (sunsetTime day) ;;
        scan_forecast now later
          {| _last_logo_check := _last_logo_check self;
             _last_time := _last_time self;
             today_sunrise := Some utc_sunrise;
             today_sunset := Some utc_sunset;
             last_fetch_date := Some (date now);
             _data := _data self |}
      else scan_forecast now later self
  end.

Definition same_date (cached : option (Z * Z * Z)) (today : Z * Z * Z) : bool :=
  match cached with
  | None => false
  | Some d => date_eqb d today
  end.

Definition calculate_sunrise_sunset (r : Readings) (self : ClockScene)
  : result (ClockScene * (option Z * option Z)) :=
  let now := fetch_now r in
  if negb (same_date (last_fetch_date self) (date now)) then
    match forecast r with
    | grab_raises e => Raise e
    | grab_none => Raise TypeError
    | grab_returns days =>
        self <- scan_forecast now days self ;;
        Ok (self, (today_sunrise self, today_sunset self))
    end
  else Ok (self, (today_sunrise self, today_sunset self)).

(** [clock_format], unbound when [CLOCK_FORMAT] is neither spelling. *)
Definition clock_format : option (DateTime -> string) :=
  if String.eqb CLOCK_FORMAT "12hr" then Some strftime_lM
  else if String.eqb CLOCK_FORMAT "24hr" then Some strftime_HM
  else None.

(** Operand of a datetime subtraction: [None - datetime] is a [TypeError]. *)
Definition datetime_operand (t : option Z) : result Z :=
  match t with
  | Some t => Ok t
  | None => Raise TypeError
  end.

Definition clock_color (time_until_sunrise time_until_sunset : Z) : Colour :=
  if time_until_sunset <=? 0 then NIGHT_COLOUR
  else if time_until_sunrise <=? 0 then DAY_COLOUR
  else NIGHT_COLOUR.

Definition clock (r : Readings) (self : ClockScene)
  : result (ClockScene * list Event) :=
  if negb (Nat.eqb (List.length (_data self)) 0) then
    Ok ({| _last_logo_check := _last_logo_check self;
           _last_time := None;
           today_sunrise := today_sunrise self;
           today_sunset := today_sunset self;
           last_fetch_date := last_fetch_date self;
           _data := _data self |}, [])
  else
    let now := clock_now r in
    strftime <- match clock_format with
                | Some f => Ok f
                | None => Raise UnboundLocalError
                end ;;
    let current_time := strftime now in
    '(self, (utc_sunrise, utc_sunset)) <- calculate_sunrise_sunset r self ;;
    utc_sunrise <- datetime_operand utc_sunrise ;;
    let time_until_sunrise := utc_sunrise - utcnow_sunrise r in
    utc_sunset <- datetime_operand utc_sunset ;;
    let time_until_sunset := utc_sunset - utcnow_sunset r in
    let clock_color := clock_color time_until_sunrise time_until_sunset in
    let erase :=
      match _last_time self with
      | Some last =>
          if truthy (Some last)
          then [DrawText CLOCK_FONT (fst CLOCK_POSITION) (snd CLOCK_POSITION)
                         BLACK last]
          else []
      | None => []
      end in
    Ok ({| _last_logo_check := _last_logo_check self;
           _last_time := Some current_time;
           today_sunrise := today_sunrise self;
           today_sunset := today_sunset self;
           last_fetch_date := last_fetch_date self;
           _data := _data self |},
        erase
        ++ [DrawText CLOCK_FONT (fst CLOCK_POSITION) (snd CLOCK_POSITION)
                     clock_color current_time]).

End ClockSceneMethods.

(** [ClockScene.draw], the keyframe: [now] is the reading of [time.time()]
    in [should_show_logo], [shown_at] the one in [show_delta_logo].
    [self.display] is the [Display], which has [should_show_logo]. *)
Definition draw (cfg : Config) (now shown_at : Z) (display : Display)
  : Display * list Event :=
  if should_show_logo cfg now display
  then show_delta_logo cfg shown_at display
  else (display, []).

(** ** Vocabulary of the statements *)

(** The platform shutdown action. *)
Definition is_shutdown_action (e : Event) : bool :=
  match e with
  | System _ => true
  | _ => false
  end.

(** How many times a run issued the platform shutdown action. *)
Definition shutdown_actions (events : list Event) : nat :=
  List.length (filter is_shutdown_action events).

(** A clear, a commit or a platform shutdown action. *)
Definition is_clear_commit_or_shutdown (e : Event) : bool :=
  match e with
  | Clear | SwapOnVSync | System _ => true
  | _ => false
  end.

Definition is_draw_text (e : Event) : bool :=
  match e with
  | DrawText _ _ _ _ _ => true
  | _ => false
  end.

Definition is_print (e : Event) : bool :=
  match e with
  | Print _ => true
  | _ => false
  end.

(** The flag after a run of polls. *)
Fixpoint guard_after (shutdown_hour shutdown_minute : Z)
         (readings : list DateTime) (shutdown_triggered : bool) : bool :=
  match readings with
  | [] => shutdown_triggered
  | now :: later =>
      guard_after shutdown_hour shutdown_minute later
                  (snd (poll shutdown_hour shutdown_minute now shutdown_triggered))
  end.

(** A reading at the target hour and minute. *)
Definition at_target (shutdown_hour shutdown_minute : Z) (now : DateTime) : Prop :=
  hour now = shutdown_hour /\ minute now = shutdown_minute.

(** The wording of the specification for a well-formed shutdown time:
    exactly two integers separated by one colon. *)
Definition two_colon_separated_integers (max_str_digits : Z) (s : string)
  : Prop :=
  exists (a b : string) (h m : Z),
    s = (a ++ ":" ++ b)%string
    /\ int max_str_digits a = Some h /\ int max_str_digits b = Some m.

Fixpoint all_chars (p : ascii -> bool) (s : string) : bool :=
  match s with
  | EmptyString => true
  | String c rest => p c && all_chars p rest
  end.

Definition not_colon (c : ascii) : bool := negb (Ascii.eqb c ":").

(** The characters an integer literal can hold. *)
Definition int_char (c : ascii) : bool :=
  is_space c || is_digit c
  || Ascii.eqb c "+" || Ascii.eqb c "-" || Ascii.eqb c "_".

(** A forecast entry for the date of [now]. *)
Definition entry_for (now : DateTime) (day : Day) : bool :=
  String.eqb (substring 0 10 (startTime day)) (strftime_Ymd now).

(** ** Inputs used to evaluate the model *)

(** The panel-sized image [_load_delta_logo] builds from a square logo. *)
Definition delta_logo : Image := PILImage "delta_logo.ppm".

Definition logo_path_pi : string :=
  "/home/pi/its-a-plane-python/images/delta_logo.ppm".

(** The display right after construction with the logo on disk. *)
Definition display_with_logo : Display :=
  fst (__init__ config_py logo_path_pi (Loaded 64 64 delta_logo)).

(** A non-wrapping dim window, 9 to 17. *)
Definition config_9_17 : Config := {|
  BRIGHTNESS := 50;
  LED_ROWS := 64;
  LED_COLS := 128;
  LED_CHAIN := 1;
  DIM_BRIGHTNESS := 15;
  DIM_START := 9;
  DIM_END := 17;
  DELTA_LOGO_ENABLED := true;
  DELTA_LOGO_PATH := "images/delta_logo.ppm";
  DELTA_LOGO_INTERVAL := 30;
  DELTA_LOGO_DURATION := 5;
  AUTO_SHUTDOWN_ENABLED := false;
  AUTO_SHUTDOWN_TIME := "23:30"
|}.

(** [config.py] with the scheduler on and the given shutdown time. *)
Definition with_shutdown_time (time : string) : Config := {|
  BRIGHTNESS := 50;
  LED_ROWS := 64;
  LED_COLS := 128;
  LED_CHAIN := 1;
  DIM_BRIGHTNESS := 15;
  DIM_START := 22;
  DIM_END := 7;
  DELTA_LOGO_ENABLED := true;
  DELTA_LOGO_PATH := "images/delta_logo.ppm";
  DELTA_LOGO_INTERVAL := 30;
  DELTA_LOGO_DURATION := 5;
  AUTO_SHUTDOWN_ENABLED := true;
  AUTO_SHUTDOWN_TIME := time
|}.

(** [text * n] *)
Fixpoint repeated (n : nat) (text : string) : string :=
  match n with
  | O => EmptyString
  | S n' => (text ++ repeated n' text)%string
  end.

(** A shutdown time written without its colon. *)
Definition config_bad_time : Config := {|
  BRIGHTNESS := 50;
  LED_ROWS := 64;
  LED_COLS := 128;
  LED_CHAIN := 1;
  DIM_BRIGHTNESS := 15;
  DIM_START := 22;
  DIM_END := 7;
  DELTA_LOGO_ENABLED := true;
  DELTA_LOGO_PATH := "images/delta_logo.ppm";
  DELTA_LOGO_INTERVAL := 30;
  DELTA_LOGO_DURATION := 5;
  AUTO_SHUTDOWN_ENABLED := true;
  AUTO_SHUTDOWN_TIME := "2330"
|}.

Definition hours_of_day : list Z := map Z.of_nat (seq 0 24).

(** An instance of [strptime] for running the clock scene: timestamps
    written [YYYY-MM-DDTHH:MM:SSZ] with every field at full width, turned
    into microseconds since 1970-01-01T00:00:00. *)
Fixpoint take_digits (n : nat) (acc : Z) (s : string) : option (Z * string) :=
  match n with
  | O => Some (acc, s)
  | S n' =>
      match s with
      | String c rest =>
          if is_digit c then take_digits n' (10 * acc + digit_value c) rest
          else None
      | EmptyString => None
      end
  end.

Definition expect (c : ascii) (s : string) : option string :=
  match s with
  | String c' rest => if Ascii.eqb c c' then Some rest else None
  | EmptyString => None
  end.

Definition is_leap (y : Z) : bool :=
  ((y mod 4 =? 0) && negb (y mod 100 =? 0)) || (y mod 400 =? 0).

Definition days_in_month (y m : Z) : Z :=
  if m =? 2 then (if is_leap y then 29 else 28)
  else if (m =? 4) || (m =? 6) || (m =? 9) || (m =? 11) then 30
  else 31.

(** Days from 1970-01-01 to the given civil date. *)
Definition days_from_civil (y m d : Z) : Z :=
  let y := if m <=? 2 then y - 1 else y in
  let era := y / 400 in
  let yoe := y - era * 400 in
  let doy := (153 * (if m >? 2 then m - 3 else m + 9) + 2) / 5 + d - 1 in
  let doe := yoe * 365 + yoe / 4 - yoe / 100 + doy in
  era * 146097 + doe - 719468.

Definition strptime_iso (text : string) : option Z :=
  match take_digits 4 0 text with
  | None => None
  | Some (y, s) =>
  match option_map (take_digits 2 0) (expect "-" s) with
  | Some (Some (m, s)) =>
  match option_map (take_digits 2 0) (expect "-" s) with
  | Some (Some (d, s)) =>
  match option_map (take_digits 2 0) (expect "T" s) with
  | Some (Some (hh, s)) =>
  match option_map (take_digits 2 0) (expect ":" s) with
  | Some (Some (mm, s)) =>
  match option_map (take_digits 2 0) (expect ":" s) with
  | Some (Some (ss, s)) =>
      if String.eqb s "Z"
         && (1 <=? y) && (1 <=? m) && (m <=? 12)
         && (1 <=? d) && (d <=? days_in_month y m)
         && (hh <=? 23) && (mm <=? 59) && (ss <=? 59)
      then Some ((((days_from_civil y m d * 24 + hh) * 60 + mm) * 60 + ss)
                 * 1000000)
      else None
  | _ => None end
  | _ => None end
  | _ => None end
  | _ => None end
  | _ => None end
  end.

(** Two days of the clock scene.  On 1 May the forecast has the day's
    entry; on 2 May the service is asked again at noon UTC. *)
Definition forecast_1_may : list Day :=
  [mkDay "2024-05-01T05:00:00Z" "2024-05-01T04:31:00Z" "2024-05-01T19:48:00Z";
   mkDay "2024-05-02T05:00:00Z" "2024-05-02T04:29:00Z" "2024-05-02T19:50:00Z"].

(** A forecast whose entries start on the next day. *)
Definition forecast_without_today : list Day :=
  [mkDay "2024-05-03T05:00:00Z" "2024-05-03T04:27:00Z" "2024-05-03T19:52:00Z"].

Definition readings_1_may : Readings := {|
  clock_now := mkDateTime 2024 5 1 23 59 30;
  fetch_now := mkDateTime 2024 5 1 23 59 30;
  utcnow_sunrise := 1714607970000000;
  utcnow_sunset := 1714607970000020;
  forecast := grab_returns forecast_1_may
|}.

Definition readings_2_may (answer : Forecast) : Readings := {|
  clock_now := mkDateTime 2024 5 2 12 0 0;
  fetch_now := mkDateTime 2024 5 2 12 0 0;
  utcnow_sunrise := 1714651200000000;
  utcnow_sunset := 1714651200000020;
  forecast := answer
|}.

(** The scene after its first call on 1 May: the cache holds that day's
    sunrise and sunset, and "23:59" is on the panel. *)
Definition scene_after_1_may : ClockScene :=
  match clock strptime_iso "24hr" readings_1_may ClockScene__init__ with
  | Ok (self, _) => self
  | Raise _ => ClockScene__init__
  end.

(** ** Vocabulary of the further properties *)

Definition is_clear (e : Event) : bool :=
  match e with
  | Clear => true
  | _ => false
  end.

Definition is_commit (e : Event) : bool :=
  match e with
  | SwapOnVSync => true
  | _ => false
  end.

(** How many of the readings fall outside the target minute. *)
Definition off_minute_polls (shutdown_minute : Z) (readings : list DateTime)
  : nat :=
  List.length
    (filter (fun now => negb (minute now =? shutdown_minute)) readings).

(** A reading a wall clock can show. *)
Definition time_of_day (now : DateTime) : Prop :=
  0 <= hour now <= 23 /\ 0 <= minute now <= 59.

(** The three cache fields of the scene are filled together. *)
Definition cache_consistent (self : ClockScene) : Prop :=
  match today_sunrise self, today_sunset self, last_fetch_date self with
  | None, None, None => True
  | Some _, Some _, Some _ => True
  | _, _, _ => False
  end.

(** A configured time that reads well and names no time of day. *)
Definition config_25_00 : Config := {|
  BRIGHTNESS := 50;
  LED_ROWS := 64;
  LED_COLS := 128;
  LED_CHAIN := 1;
  DIM_BRIGHTNESS := 15;
  DIM_START := 22;
  DIM_END := 7;
  DELTA_LOGO_ENABLED := false;
  DELTA_LOGO_PATH := "images/delta_logo.ppm";
  DELTA_LOGO_INTERVAL := 30;
  DELTA_LOGO_DURATION := 5;
  AUTO_SHUTDOWN_ENABLED := true;
  AUTO_SHUTDOWN_TIME := "25:00"
|}.

(** A dim window whose two ends coincide. *)
Definition config_8_8 : Config := {|
  BRIGHTNESS := 50;
  LED_ROWS := 64;
  LED_COLS := 128;
  LED_CHAIN := 1;
  DIM_BRIGHTNESS := 15;
  DIM_START := 8;
  DIM_END := 8;
  DELTA_LOGO_ENABLED := true;
  DELTA_LOGO_PATH := "images/delta_logo.ppm";
  DELTA_LOGO_INTERVAL := 30;
  DELTA_LOGO_DURATION := 5;
  AUTO_SHUTDOWN_ENABLED := false;
  AUTO_SHUTDOWN_TIME := "23:30"
|}.

(** The scene of 1 May after its cache was refreshed on 2 May. *)
Definition scene_on_2_may : ClockScene := {|
  _last_logo_check := 0;
  _last_time := Some "23:59";
  today_sunrise := Some 1714624140000000;
  today_sunset := Some 1714679400000000;
  last_fetch_date := Some (2024, 5, 2);
  _data := []
|}.

(** A forecast with two entries for 2 May and one with a broken sunrise. *)
Definition forecast_two_entries : list Day :=
  [mkDay "2024-05-02T05:00:00Z" "2024-05-02T04:29:00Z" "2024-05-02T19:50:00Z";
   mkDay "2024-05-01T05:00:00Z" "yesterday" "2024-05-01T19:48:00Z";
   mkDay "2024-05-02T17:00:00Z" "2024-05-02T04:30:00Z" "2024-05-02T19:51:00Z";
   mkDay "2024-05-03T05:00:00Z" "2024-05-03T04:27:00Z" "2024-05-03T19:52:00Z"].

Definition forecast_broken_today : list Day :=
  [mkDay "2024-05-01T05:00:00Z" "2024-05-01T04:31:00Z" "2024-05-01T19:48:00Z";
   mkDay "2024-05-02T05:00:00Z" "04:29" "2024-05-02T19:50:00Z"].

(** ** Results on the string functions *)

Section ShutdownTimeParsing.

Variable max_str_digits : Z.

Lemma split_colon_nonempty (s : string) : split_colon s <> [].
Proof.
  destruct s as [|c rest]; simpl; [discriminate|].
  destruct (Ascii.eqb c ":"); [discriminate|].
  destruct (split_colon rest); discriminate.
Qed.

Lemma split_colon_one (s b : string) : split_colon s = [b] -> s = b.
Proof.
  revert b; induction s as [|c rest IH]; intros b H; simpl in H.
  - now inversion H.
  - destruct (Ascii.eqb c ":").
    + inversion H as [[Hb Hrest]].
      now apply split_colon_nonempty in Hrest.
    + destruct (split_colon rest) as [|piece pieces] eqn:E;
        inversion H; subst.
      * now apply split_colon_nonempty in E.
      * f_equal. now apply IH.
Qed.

Lemma split_colon_two (s a b : string) :
  split_colon s = [a; b] -> s = (a ++ ":" ++ b)%string.
Proof.
  revert a; induction s as [|c rest IH]; intros a H; simpl in H.
  - discriminate.
  - destruct (Ascii.eqb_spec c ":") as [->|Hc].
    + inversion H as [[Ha Hrest]]. apply split_colon_one in Hrest.
      now subst.
    + destruct (split_colon rest) as [|piece pieces] eqn:E;
        inversion H; subst.
      simpl. f_equal. now apply IH.
Qed.

Lemma split_colon_no_colon (b : string) :
  all_chars not_colon b = true -> split_colon b = [b].
Proof.
  induction b as [|c rest IH]; simpl; intros H; [reflexivity|].
  apply andb_prop in H as [Hc Hrest]. unfold not_colon in Hc.
  destruct (Ascii.eqb c ":"); [discriminate|].
  now rewrite (IH Hrest).
Qed.

Lemma split_colon_app (a b : string) :
  all_chars not_colon a = true ->
  split_colon (a ++ ":" ++ b) = a :: split_colon b.
Proof.
  change (":" ++ b)%string with (String ":" b).
  induction a as [|c rest IH]; simpl; intros H; [reflexivity|].
  apply andb_prop in H as [Hc Hrest]. unfold not_colon in Hc.
  destruct (Ascii.eqb c ":"); [discriminate|].
  now rewrite (IH Hrest).
Qed.

Lemma all_chars_weaken (p q : ascii -> bool) (s : string) :
  (forall c, p c = true -> q c = true) ->
  all_chars p s = true -> all_chars q s = true.
Proof.
  intros Hpq; induction s as [|c rest IH]; simpl; [easy|].
  intros H; apply andb_prop in H as [Hc Hrest].
  now rewrite (Hpq _ Hc), (IH Hrest).
Qed.

Lemma int_digits_chars (s : string) (acc count : Z) (after_digit : bool)
      (v : Z * Z) :
  int_digits s acc count after_digit = Some v -> all_chars int_char s = true.
Proof.
  revert acc count after_digit; induction s as [|c rest IH];
    intros acc count after_digit H; simpl in *; [reflexivity|].
  unfold int_char at 1.
  destruct (is_digit c).
  - rewrite (IH _ _ _ H). now rewrite orb_true_r.
  - destruct (Ascii.eqb c "_"); [|discriminate].
    destruct after_digit; [|discriminate].
    rewrite (IH _ _ _ H). now rewrite !orb_true_r.
Qed.

Lemma is_space_int_char (c : ascii) : is_space c = true -> int_char c = true.
Proof. unfold int_char; now intros ->. Qed.

Lemma lstrip_chars (s : string) :
  all_chars int_char (lstrip s) = true -> all_chars int_char s = true.
Proof.
  induction s as [|c rest IH]; simpl; [easy|].
  destruct (is_space c) eqn:E; [|easy].
  intros H. now rewrite (is_space_int_char _ E), (IH H).
Qed.

Lemma rstrip_chars (s : string) :
  all_chars int_char (rstrip s) = true -> all_chars int_char s = true.
Proof.
  induction s as [|c rest IH]; simpl; [easy|].
  destruct (rstrip rest) as [|k kept] eqn:E.
  - destruct (is_space c) eqn:Ec; simpl; intros H.
    + now rewrite (is_space_int_char _ Ec), IH.
    + rewrite andb_true_r in H. now rewrite H, IH.
  - intros H. change (all_chars int_char (String c (String k kept)))
      with (int_char c && all_chars int_char (String k kept)) in H.
    apply andb_prop in H as [Hc Hk]. now rewrite Hc, (IH Hk).
Qed.

Lemma int_chars (s : string) (v : Z) :
  int max_str_digits s = Some v -> all_chars int_char s = true.
Proof.
  unfold int; intros H.
  apply lstrip_chars, rstrip_chars.
  destruct (rstrip (lstrip s)) as [|c digits]; [discriminate|].
  destruct (int_digits _ 0 0 false) as [v'|] eqn:E; [|discriminate].
  apply int_digits_chars in E. clear H.
  destruct (Ascii.eqb c "+") eqn:Eplus; simpl in E.
  - simpl. unfold int_char at 1. now rewrite Eplus, !orb_true_r.
  - destruct (Ascii.eqb c "-") eqn:Eminus; simpl in E; [|exact E].
    simpl. unfold int_char at 1. now rewrite Eminus, !orb_true_r.
Qed.

Lemma int_char_not_colon (c : ascii) : int_char c = true -> not_colon c = true.
Proof.
  unfold not_colon. destruct (Ascii.eqb_spec c ":") as [->|]; [|easy].
  vm_compute. discriminate.
Qed.

Lemma int_no_colon (s : string) (v : Z) :
  int max_str_digits s = Some v -> all_chars not_colon s = true.
Proof.
  intros H. apply (all_chars_weaken int_char); [apply int_char_not_colon|].
  now apply int_chars in H.
Qed.

(** The unpacking succeeds exactly on two integers separated by a colon. *)
Lemma parse_shutdown_time_Some (s : string) (h m : Z) :
  parse_shutdown_time max_str_digits s = Some (h, m) <->
  exists a b,
    s = (a ++ ":" ++ b)%string
    /\ int max_str_digits a = Some h /\ int max_str_digits b = Some m.
Proof.
  unfold parse_shutdown_time; split.
  - destruct (split_colon s) as [|a [|b [|c rest]]] eqn:E; simpl;
      try discriminate.
    + destruct (int max_str_digits a); discriminate.
    + destruct (int max_str_digits a) eqn:Ea; [|discriminate].
      destruct (int max_str_digits b) eqn:Eb; [|discriminate].
      intros [= <- <-]. exists a, b. split; [|easy].
      now apply split_colon_two.
    + destruct (int max_str_digits a); [|discriminate].
      destruct (int max_str_digits b); discriminate.
  - intros (a & b & -> & Ha & Hb).
    rewrite (split_colon_app _ _ (int_no_colon _ _ Ha)).
    rewrite (split_colon_no_colon _ (int_no_colon _ _ Hb)).
    simpl. now rewrite Ha, Hb.
Qed.

Lemma parse_shutdown_time_None (s : string) :
  ~ two_colon_separated_integers max_str_digits s ->
  parse_shutdown_time max_str_digits s = None.
Proof.
  intros H.
  destruct (parse_shutdown_time max_str_digits s) as [[h m]|] eqn:E; [|easy].
  exfalso; apply H. apply parse_shutdown_time_Some in E as (a & b & E).
  now exists a, b, h, m.
Qed.

End ShutdownTimeParsing.

(** ** The shutdown scheduler *)

Section ShutdownScheduler.

Variables shutdown_hour shutdown_minute : Z.

Lemma poll_fires (now : DateTime) :
  at_target shutdown_hour shutdown_minute now ->
  poll shutdown_hour shutdown_minute now false =
  ([Print ("[INFO] Auto-shutdown triggered at " ++ strftime_HM now);
    Clear; SwapOnVSync; Sleep 2; System "sudo shutdown -h now"], true).
Proof.
  intros [Hh Hm]. unfold poll.
  apply Z.eqb_eq in Hh, Hm. now rewrite Hh, Hm.
Qed.

Lemma poll_guarded (now : DateTime) :
  at_target shutdown_hour shutdown_minute now -> poll shutdown_hour shutdown_minute now true = ([], true).
Proof.
  intros [Hh Hm]. unfold poll.
  apply Z.eqb_eq in Hh, Hm. now rewrite Hh, Hm.
Qed.

Lemma poll_other_minute (now : DateTime) (guard : bool) :
  minute now <> shutdown_minute -> poll shutdown_hour shutdown_minute now guard = ([], false).
Proof.
  intros Hm. unfold poll.
  apply Z.eqb_neq in Hm. rewrite Hm, andb_false_r. reflexivity.
Qed.

Lemma shutdown_actions_app (xs ys : list Event) :
  shutdown_actions (xs ++ ys) = (shutdown_actions xs + shutdown_actions ys)%nat.
Proof. unfold shutdown_actions. now rewrite filter_app, length_app. Qed.

(** The events of a run over [xs ++ ys] are those over [xs] followed by
    those over [ys], started with the flag [xs] leaves. *)
Lemma shutdown_polls_app (xs ys : list DateTime) (guard : bool) :
  fst (shutdown_polls shutdown_hour shutdown_minute (Ok tt) (xs ++ ys) guard)
  = fst (shutdown_polls shutdown_hour shutdown_minute (Ok tt) xs guard)
    ++ fst (shutdown_polls shutdown_hour shutdown_minute (Ok tt) ys
              (guard_after shutdown_hour shutdown_minute xs guard)).
Proof.
  revert guard; induction xs as [|now later IH]; intros guard; simpl;
    [reflexivity|].
  destruct (poll shutdown_hour shutdown_minute now guard) as [events guard'] eqn:E. simpl.
  specialize (IH guard').
  destruct (shutdown_polls _ _ _ (later ++ ys) guard') as [rest exit].
  destruct (shutdown_polls _ _ _ later guard') as [rest1 exit1].
  simpl in *. rewrite IH. now rewrite <- !app_assoc.
Qed.

(** While the readings stay in the target minute, a set flag stays set
    and nothing is issued. *)
Lemma same_minute_quiet (readings : list DateTime) :
  Forall (at_target shutdown_hour shutdown_minute) readings ->
  guard_after shutdown_hour shutdown_minute readings true = true /\
  shutdown_actions
    (fst (shutdown_polls shutdown_hour shutdown_minute (Ok tt) readings true))
  = 0%nat.
Proof.
  induction 1 as [|now later Hnow _ [IHg IHn]]; simpl; [easy|].
  rewrite (poll_guarded _ Hnow). simpl. split; [exact IHg|].
  destruct (shutdown_polls _ _ _ later true) as [rest exit].
  exact IHn.
Qed.

Lemma first_poll_run (first : DateTime) (later : list DateTime) :
  at_target shutdown_hour shutdown_minute first ->
  fst (shutdown_polls shutdown_hour shutdown_minute (Ok tt) (first :: later)
                      false)
  = fst (poll shutdown_hour shutdown_minute first false) ++ [Sleep 30]
    ++ fst (shutdown_polls shutdown_hour shutdown_minute (Ok tt) later true).
Proof.
  intros H. simpl. rewrite (poll_fires _ H).
  destruct (shutdown_polls _ _ _ later true) as [rest exit]. reflexivity.
Qed.

(** When [self.play()] raises, the thread ends after its first poll. *)
Lemma shutdown_polls_play_raises (e : Exn) (now : DateTime)
      (later : list DateTime) (guard : bool) :
  shutdown_polls shutdown_hour shutdown_minute (Raise e) (now :: later) guard
  = (fst (poll shutdown_hour shutdown_minute now guard) ++ [Sleep 30],
     Raised e).
Proof.
  simpl. now destruct (poll shutdown_hour shutdown_minute now guard).
Qed.

End ShutdownScheduler.

(** C1.  With a configured time that parses to [shutdown_hour] and
    [shutdown_minute]: a poll at that hour and minute with the flag clear
    clears the panel, commits, waits two seconds, issues the shutdown
    command and sets the flag; a poll in the same minute with the flag set
    issues nothing and keeps the flag; a poll at any other minute clears the
    flag; so a run of the loop over a first poll at the target and any
    number of polls in the same minute issues the shutdown once, and after
    a poll at another minute the poll at the next day's target minute
    issues it again. *)
Theorem shutdown_guard_cycle
        (cfg : Config) (max_str_digits : Z) (shutdown_hour shutdown_minute : Z) :
  parse_shutdown_time max_str_digits (AUTO_SHUTDOWN_TIME cfg)
  = Some (shutdown_hour, shutdown_minute) ->
  (forall now, at_target shutdown_hour shutdown_minute now ->
     poll shutdown_hour shutdown_minute now false
     = ([Print ("[INFO] Auto-shutdown triggered at " ++ strftime_HM now);
         Clear; SwapOnVSync; Sleep 2; System "sudo shutdown -h now"], true))
  /\ (forall now, at_target shutdown_hour shutdown_minute now ->
        poll shutdown_hour shutdown_minute now true = ([], true))
  /\ (forall now guard, minute now <> shutdown_minute ->
        poll shutdown_hour shutdown_minute now guard = ([], false))
  /\ (forall first same_minute away next_day,
        at_target shutdown_hour shutdown_minute first ->
        Forall (at_target shutdown_hour shutdown_minute) same_minute ->
        minute away <> shutdown_minute ->
        at_target shutdown_hour shutdown_minute next_day ->
        shutdown_actions
          (fst (_shutdown_loop cfg max_str_digits (Ok tt) (first :: same_minute))) = 1%nat
        /\ shutdown_actions
             (fst (_shutdown_loop cfg max_str_digits (Ok tt)
                     (first :: same_minute ++ [away])))
           = 1%nat
        /\ shutdown_actions
             (fst (_shutdown_loop cfg max_str_digits (Ok tt)
                     (first :: same_minute ++ [away; next_day])))
           = 2%nat).
Proof.
  intros Hparse. repeat split.
  - intros now H. now apply poll_fires.
  - intros now H. now apply poll_guarded.
  - intros now guard H. now apply poll_other_minute.
  - unfold _shutdown_loop. rewrite Hparse.
    rewrite first_poll_run by assumption. rewrite (poll_fires _ _ _ H).
    rewrite !shutdown_actions_app.
    destruct (same_minute_quiet _ _ _ H0) as [_ ->]. reflexivity.
  - unfold _shutdown_loop. rewrite Hparse.
    rewrite first_poll_run by assumption. rewrite (poll_fires _ _ _ H).
    rewrite shutdown_polls_app, !shutdown_actions_app.
    destruct (same_minute_quiet _ _ _ H0) as [-> ->].
    simpl. rewrite (poll_other_minute _ _ _ _ H1). reflexivity.
  - unfold _shutdown_loop. rewrite Hparse.
    rewrite first_poll_run by assumption. rewrite (poll_fires _ _ _ H).
    rewrite shutdown_polls_app, !shutdown_actions_app.
    destruct (same_minute_quiet _ _ _ H0) as [-> ->].
    simpl. rewrite (poll_other_minute _ _ _ _ H1).
    simpl. rewrite (poll_fires _ _ _ H2). reflexivity.
Qed.

(** The scenario of the specification: 23:30:00, 23:30:15, 23:31:00, and
    23:30:00 on the next day. *)
Lemma shutdown_guard_cycle_witness :
  shutdown_actions
    (fst (_shutdown_loop config_py 4300 (Ok tt)
            (mkDateTime 2024 5 1 23 30 0
             :: [mkDateTime 2024 5 1 23 30 15]
                ++ [mkDateTime 2024 5 1 23 31 0; mkDateTime 2024 5 2 23 30 0])))
  = 2%nat.
Proof.
  apply (shutdown_guard_cycle config_py 4300 23 30).
  - reflexivity.
  - split; reflexivity.
  - repeat constructor.
  - simpl; lia.
  - split; reflexivity.
Defined.

(** C9.  A configured time that is not two integers separated by one colon
    makes [_shutdown_loop] print one error line and return: no clear, no
    commit and no shutdown command is ever issued, whatever the clock shows,
    however long the process runs, and whatever limit the interpreter puts
    on the digits of an integer. *)
Theorem malformed_shutdown_time_disables_scheduler
        (cfg : Config) (max_str_digits : Z) (play : result unit)
        (readings : list DateTime) :
  ~ two_colon_separated_integers max_str_digits (AUTO_SHUTDOWN_TIME cfg) ->
  _shutdown_loop cfg max_str_digits play readings
  = ([Print ("[ERROR] Invalid AUTO_SHUTDOWN_TIME: " ++ AUTO_SHUTDOWN_TIME cfg)],
     Returned)
  /\ List.length (filter is_print (fst (_shutdown_loop cfg max_str_digits play readings)))
     = 1%nat
  /\ filter is_clear_commit_or_shutdown (fst (_shutdown_loop cfg max_str_digits play readings))
     = [].
Proof.
  intros H. unfold _shutdown_loop.
  rewrite (parse_shutdown_time_None _ _ H). repeat split.
Qed.

Lemma malformed_shutdown_time_disables_scheduler_witness :
  _shutdown_loop config_bad_time 4300 (Ok tt)
                 [mkDateTime 2024 5 1 23 30 0; mkDateTime 2024 5 1 23 30 30]
  = ([Print "[ERROR] Invalid AUTO_SHUTDOWN_TIME: 2330"], Returned).
Proof.
  apply (malformed_shutdown_time_disables_scheduler config_bad_time 4300).
  intros (a & b & h & m & Hs & _).
  assert (Hcolon : all_chars not_colon (AUTO_SHUTDOWN_TIME config_bad_time)
                   = true) by reflexivity.
  rewrite Hs in Hcolon. clear Hs.
  induction a as [|c rest IH]; simpl in Hcolon; [discriminate|].
  apply andb_prop in Hcolon as [_ Hrest]. now apply IH.
Defined.

(** Strings the interpreter refuses and a looser reading would take: a
    file separator before the hour, and an hour of more digits than the
    limit allows.  Without a limit the long hour is read. *)
Example control_character_time_is_refused :
  _shutdown_loop (with_shutdown_time (String (ascii_of_nat 28) "23:30")) 4300
                 (Ok tt) [mkDateTime 2024 5 1 23 30 0]
  = ([Print (String.append "[ERROR] Invalid AUTO_SHUTDOWN_TIME: "
                           (String (ascii_of_nat 28) "23:30"))],
     Returned).
Proof. reflexivity. Qed.

Example overlong_hour_is_refused :
  parse_shutdown_time 4300 (repeated 4301 "0" ++ ":30") = None
  /\ parse_shutdown_time 4300 (repeated 4300 "0" ++ ":30") = Some (0, 30)
  /\ parse_shutdown_time 0 (repeated 4301 "0" ++ ":30") = Some (0, 30).
Proof. vm_compute. repeat split. Qed.

(** ** The dimming schedule *)

Section DimmingScheduler.

Variable cfg : Config.

Lemma update_brightness_applies_target (now : DateTime) (self : Display) :
  matrix_brightness (fst (update_brightness cfg now self))
  = target cfg (hour now).
Proof.
  unfold update_brightness.
  destruct (Z.eqb_spec (matrix_brightness self) (target cfg (hour now)));
    simpl; auto.
Qed.

(** The hardware is written only when the level changes. *)
Lemma update_brightness_writes_on_change (now : DateTime) (self : Display) :
  snd (update_brightness cfg now self)
  = if matrix_brightness self =? target cfg (hour now)
    then [] else [SetBrightness (target cfg (hour now))].
Proof.
  unfold update_brightness.
  destruct (matrix_brightness self =? target cfg (hour now)); reflexivity.
Qed.

Lemma is_dim_wrapping (h : Z) :
  DIM_START cfg > DIM_END cfg ->
  is_dim cfg h = true <-> h >= DIM_START cfg \/ h < DIM_END cfg.
Proof.
  intros Hwrap. unfold is_dim.
  destruct (Z.gtb_spec (DIM_START cfg) (DIM_END cfg)); [|lia].
  rewrite orb_true_iff, Z.geb_le, Z.ltb_lt. lia.
Qed.

Lemma is_dim_plain (h : Z) :
  DIM_START cfg <= DIM_END cfg ->
  is_dim cfg h = true <-> DIM_START cfg <= h < DIM_END cfg.
Proof.
  intros Hplain. unfold is_dim.
  destruct (Z.gtb_spec (DIM_START cfg) (DIM_END cfg)); [lia|].
  rewrite andb_true_iff, Z.leb_le, Z.ltb_lt. lia.
Qed.

Lemma target_cases (h : Z) (window : Prop) :
  (is_dim cfg h = true <-> window) ->
  (window -> target cfg h = DIM_BRIGHTNESS cfg)
  /\ (~ window -> target cfg h = BRIGHTNESS cfg)
  /\ (DIM_BRIGHTNESS cfg <> BRIGHTNESS cfg ->
      (target cfg h = DIM_BRIGHTNESS cfg <-> window)).
Proof.
  intros Hw. unfold target. destruct (is_dim cfg h).
  - assert window by now apply Hw. repeat split; tauto.
  - assert (~ window) by (intros W; apply Hw in W; discriminate).
    repeat split; try tauto. intros E. congruence.
Qed.

End DimmingScheduler.

(** C4.  For an hour of the day, the brightness [update_brightness] leaves
    on the matrix is: with a wrapping window ([DIM_START > DIM_END]) the dim
    value when the hour is at or after the start or before the end, and the
    normal value otherwise; with a window that does not wrap the dim value
    when the hour is at or after the start and before the end, and the
    normal value otherwise.  When the two values differ, the dim value is
    applied exactly in the window. *)
Theorem dim_window_brightness (cfg : Config) (now : DateTime) (self : Display) :
  0 <= hour now <= 23 ->
  (DIM_START cfg > DIM_END cfg ->
   (hour now >= DIM_START cfg \/ hour now < DIM_END cfg ->
    matrix_brightness (fst (update_brightness cfg now self))
    = DIM_BRIGHTNESS cfg)
   /\ (~ (hour now >= DIM_START cfg \/ hour now < DIM_END cfg) ->
       matrix_brightness (fst (update_brightness cfg now self))
       = BRIGHTNESS cfg)
   /\ (DIM_BRIGHTNESS cfg <> BRIGHTNESS cfg ->
       (matrix_brightness (fst (update_brightness cfg now self))
        = DIM_BRIGHTNESS cfg
        <-> hour now >= DIM_START cfg \/ hour now < DIM_END cfg)))
  /\ (DIM_START cfg <= DIM_END cfg ->
      (DIM_START cfg <= hour now < DIM_END cfg ->
       matrix_brightness (fst (update_brightness cfg now self))
       = DIM_BRIGHTNESS cfg)
      /\ (~ (DIM_START cfg <= hour now < DIM_END cfg) ->
          matrix_brightness (fst (update_brightness cfg now self))
          = BRIGHTNESS cfg)
      /\ (DIM_BRIGHTNESS cfg <> BRIGHTNESS cfg ->
          (matrix_brightness (fst (update_brightness cfg now self))
           = DIM_BRIGHTNESS cfg
           <-> DIM_START cfg <= hour now < DIM_END cfg))).
Proof.
  intros _. rewrite update_brightness_applies_target. split; intros Hshape.
  - apply target_cases. now apply is_dim_wrapping.
  - apply target_cases. now apply is_dim_plain.
Qed.

Lemma dim_window_brightness_witness :
  matrix_brightness
    (fst (update_brightness config_py (mkDateTime 2024 5 1 23 0 0)
                            display_with_logo))
  = DIM_BRIGHTNESS config_py.
Proof.
  refine (proj1 (proj1 (dim_window_brightness config_py
                          (mkDateTime 2024 5 1 23 0 0)
                          display_with_logo _) _) _).
  - simpl; lia.
  - simpl; lia.
  - left; simpl; lia.
Defined.

(** The two windows of the specification, hour by hour. *)
Example dim_window_22_7 :
  map (target config_py) hours_of_day
  = [15; 15; 15; 15; 15; 15; 15; 50; 50; 50; 50; 50;
     50; 50; 50; 50; 50; 50; 50; 50; 50; 50; 15; 15].
Proof. reflexivity. Qed.

Example dim_window_9_17 :
  map (target config_9_17) hours_of_day
  = [50; 50; 50; 50; 50; 50; 50; 50; 50; 15; 15; 15;
     15; 15; 15; 15; 15; 50; 50; 50; 50; 50; 50; 50].
Proof. reflexivity. Qed.

(** ** The logo overlay *)

Lemma should_show_logo_true (cfg : Config) (now : Z) (self : Display) :
  should_show_logo cfg now self = true <->
  DELTA_LOGO_ENABLED cfg = true
  /\ delta_logo_image self <> None
  /\ now - _last_logo_time self >= DELTA_LOGO_INTERVAL cfg.
Proof.
  unfold should_show_logo.
  destruct (DELTA_LOGO_ENABLED cfg), (delta_logo_image self) as [image|];
    simpl; try (split; [discriminate | intros (? & ? & ?); congruence]).
  destruct (Z.geb_spec (now - _last_logo_time self) (DELTA_LOGO_INTERVAL cfg)).
  - split; [|reflexivity]. intros _. repeat split; [discriminate | lia].
  - split; [discriminate|]. intros (_ & _ & ?). lia.
Qed.

(** C3.  [should_show_logo] answers true exactly when the overlay is
    enabled, an image is loaded, and the time since [_last_logo_time] is at
    least the configured interval. *)
Theorem should_show_logo_iff (cfg : Config) (now : Z) (self : Display) :
  should_show_logo cfg now self = true <->
  DELTA_LOGO_ENABLED cfg = true
  /\ delta_logo_image self <> None
  /\ now - _last_logo_time self >= DELTA_LOGO_INTERVAL cfg.
Proof. apply should_show_logo_true. Qed.

Lemma should_show_logo_iff_witness :
  should_show_logo config_py 1714600000 display_with_logo = true.
Proof.
  apply (should_show_logo_iff config_py 1714600000 display_with_logo).
  repeat split; simpl; [discriminate | lia].
Defined.

Section Overlay.

Variable cfg : Config.

Lemma show_delta_logo_records_time (now : Z) (self : Display) (image : Image) :
  delta_logo_image self = Some image ->
  fst (show_delta_logo cfg now self)
  = {| matrix_brightness := matrix_brightness self;
       delta_logo_image := Some image;
       showing_logo := false;
       _last_logo_time := now |}.
Proof. unfold show_delta_logo. now intros ->. Qed.

Lemma show_delta_logo_sequence (now : Z) (self : Display) (image : Image) :
  delta_logo_image self = Some image ->
  snd (show_delta_logo cfg now self)
  = [Clear; SetImage image 0 0 None; SwapOnVSync; Sleep (DELTA_LOGO_DURATION cfg)].
Proof. unfold show_delta_logo. now intros ->. Qed.

(** No call on a display changes whether, or which, image is loaded. *)
Lemma perform_keeps_image (c : Call) (self : Display) :
  delta_logo_image (fst (fst (perform cfg c self))) = delta_logo_image self.
Proof.
  destruct c as [ | | | | | | now | now | now]; simpl; try reflexivity.
  - unfold update_brightness.
    now destruct (negb (matrix_brightness self =? target cfg (hour now))).
  - unfold show_delta_logo.
    now destruct (delta_logo_image self) eqn:E; simpl.
Qed.

Lemma should_show_logo_without_image (now : Z) (self : Display) :
  delta_logo_image self = None -> should_show_logo cfg now self = false.
Proof.
  intros H. unfold should_show_logo. rewrite H. now rewrite orb_true_r.
Qed.

Lemma perform_without_image (c : Call) (self : Display) :
  delta_logo_image self = None ->
  filter is_print (snd (fst (perform cfg c self))) = []
  /\ (forall answer, snd (perform cfg c self) = Some answer -> answer = false).
Proof.
  intros H.
  destruct c as [ | | |image x y unsafe| | | now | now | now]; simpl;
    try (split; [reflexivity | discriminate]).
  - destruct unsafe; split; try reflexivity; discriminate.
  - unfold update_brightness.
    destruct (negb (matrix_brightness self =? target cfg (hour now)));
      split; try reflexivity; discriminate.
  - split; [reflexivity|]. intros answer [= <-].
    now apply should_show_logo_without_image.
  - unfold show_delta_logo. rewrite H. split; [reflexivity | discriminate].
Qed.

(** Without an image, no sequence of calls loads one, prints anything, or
    gets a true answer from [should_show_logo]. *)
Lemma perform_all_without_image (calls : list Call) (self : Display) :
  delta_logo_image self = None ->
  delta_logo_image (fst (fst (perform_all cfg calls self))) = None
  /\ filter is_print (snd (fst (perform_all cfg calls self))) = []
  /\ Forall (fun answer => answer = false) (snd (perform_all cfg calls self)).
Proof.
  revert self; induction calls as [|c later IH]; intros self H; simpl.
  - split; [exact H | split; [reflexivity | constructor]].
  - pose proof (perform_keeps_image c self) as Hkeep.
    destruct (perform_without_image c self H) as [Hquiet Hanswer].
    destruct (perform cfg c self) as [[self1 events] answer]. simpl in *.
    rewrite H in Hkeep.
    destruct (IH self1 Hkeep) as (IHimage & IHquiet & IHanswers).
    destruct (perform_all cfg later self1) as [[self2 events'] answers].
    simpl in *. repeat split.
    + exact IHimage.
    + now rewrite filter_app, Hquiet, IHquiet.
    + destruct answer as [b|]; [|exact IHanswers].
      constructor; [now apply Hanswer | exact IHanswers].
Qed.

End Overlay.

(** C2, as the code has it.  With the overlay enabled, its image loaded
    and an interval of 30 seconds, the first call of [should_show_logo], at
    a clock reading [t0] of at least 30, answers true.  The method stores
    nothing: asked again at [t0 + 10] on the same display it answers true
    again.  It is [show_delta_logo], run by [draw] on a true answer, that
    stores a time, its own clock reading [shown_at] (at most one second
    after [t0]); after that a call at [t0 + 10] answers false and a call at
    [t0 + 31] answers true. *)
Theorem overlay_cycle_from_first_call
        (cfg : Config) (logo_path : string) (new_width new_height : Z)
        (image : Image) (t0 shown_at : Z) :
  DELTA_LOGO_ENABLED cfg = true ->
  DELTA_LOGO_INTERVAL cfg = 30 ->
  DELTA_LOGO_DURATION cfg = 5 ->
  30 <= t0 ->
  t0 <= shown_at <= t0 + 1 ->
  should_show_logo cfg t0
    (fst (__init__ cfg logo_path (Loaded new_width new_height image))) = true
  /\ should_show_logo cfg (t0 + 10)
       (fst (__init__ cfg logo_path (Loaded new_width new_height image)))
     = true
  /\ _last_logo_time
       (fst (draw cfg t0 shown_at
               (fst (__init__ cfg logo_path
                       (Loaded new_width new_height image))))) = shown_at
  /\ should_show_logo cfg (t0 + 10)
       (fst (draw cfg t0 shown_at
               (fst (__init__ cfg logo_path
                       (Loaded new_width new_height image))))) = false
  /\ should_show_logo cfg (t0 + 31)
       (fst (draw cfg t0 shown_at
               (fst (__init__ cfg logo_path
                       (Loaded new_width new_height image))))) = true.
Proof.
  intros Henabled Hinterval _ Ht0 Hshown.
  unfold __init__. rewrite Henabled. simpl.
  destruct (AUTO_SHUTDOWN_ENABLED cfg); simpl.
  all: unfold draw, should_show_logo; rewrite Henabled, Hinterval; simpl.
  all: destruct (Z.geb_spec (t0 - 0) 30); [|lia]; simpl.
  all: destruct (Z.geb_spec (t0 + 10 - 0) 30); [|lia].
  all: destruct (Z.geb_spec (t0 + 10 - shown_at) 30); [lia|].
  all: destruct (Z.geb_spec (t0 + 31 - shown_at) 30); [|lia].
  all: repeat split.
Qed.

Lemma overlay_cycle_from_first_call_witness :
  should_show_logo config_py (1714600000 + 31)
    (fst (draw config_py 1714600000 1714600000 display_with_logo)) = true.
Proof.
  apply (overlay_cycle_from_first_call config_py logo_path_pi 64 64 delta_logo
           1714600000 1714600000); try reflexivity; lia.
Defined.

(** C2, as stated, fails on the second call.  With the interval at 30
    seconds, the duration at 5, the overlay enabled and its image loaded,
    the first call of [should_show_logo] on a new display answers true and
    leaves the display as it was, so the call made ten seconds later
    answers true as well, where the claim has false. *)
Lemma second_call_without_show_is_true :
  DELTA_LOGO_INTERVAL config_py = 30
  /\ DELTA_LOGO_DURATION config_py = 5
  /\ DELTA_LOGO_ENABLED config_py = true
  /\ delta_logo_image display_with_logo = Some delta_logo
  /\ perform_all config_py
       [call_should_show_logo 1714600000;
        call_should_show_logo (1714600000 + 10)]
       display_with_logo
     = (display_with_logo, [], [true; true]).
Proof. repeat split. Qed.

(** C5.  When [should_show_logo] answers true, the keyframe [draw] does
    exactly this, in this order: clear the canvas, set the logo image at the
    origin, swap the frame once, sleep for the configured duration; it
    draws no text. *)
Theorem overlay_preemption_sequence
        (cfg : Config) (now shown_at : Z) (display : Display) :
  should_show_logo cfg now display = true ->
  exists image,
    delta_logo_image display = Some image
    /\ snd (draw cfg now shown_at display)
       = [Clear; SetImage image 0 0 None; SwapOnVSync;
          Sleep (DELTA_LOGO_DURATION cfg)]
    /\ filter is_draw_text (snd (draw cfg now shown_at display)) = [].
Proof.
  intros H. unfold draw. rewrite H.
  apply should_show_logo_true in H as (_ & Himage & _).
  destruct (delta_logo_image display) as [image|] eqn:E; [|congruence].
  exists image. rewrite (show_delta_logo_sequence _ _ _ _ E). repeat split.
Qed.

Lemma overlay_preemption_sequence_witness :
  exists image,
    delta_logo_image display_with_logo = Some image
    /\ snd (draw config_py 1714600000 1714600000 display_with_logo)
       = [Clear; SetImage image 0 0 None; SwapOnVSync;
          Sleep (DELTA_LOGO_DURATION config_py)]
    /\ filter is_draw_text
         (snd (draw config_py 1714600000 1714600000 display_with_logo)) = [].
Proof.
  apply (overlay_preemption_sequence config_py 1714600000 1714600000
           display_with_logo).
  reflexivity.
Defined.

(** C8.  When the logo file is absent, or loading it raises, construction
    prints the notice of that failure once and leaves [delta_logo_image] at
    [None]; after that, whatever calls are made on the display, the image
    stays [None], nothing more is printed, and every [should_show_logo]
    answers false. *)
Theorem failed_logo_load_disables_overlay
        (cfg : Config) (logo_path : string) (file : LogoFile)
        (calls : list Call) :
  DELTA_LOGO_ENABLED cfg = true ->
  file = NotFound \/ (exists e, file = LoadRaises e) ->
  delta_logo_image (fst (__init__ cfg logo_path file)) = None
  /\ (file = NotFound ->
      snd (__init__ cfg logo_path file)
      = [Print ("[WARNING] Delta logo not found at " ++ logo_path);
         Print "          Delta logo cycling is disabled."]
        ++ (if AUTO_SHUTDOWN_ENABLED cfg
            then _start_shutdown_scheduler cfg else []))
  /\ (forall e, file = LoadRaises e ->
      snd (__init__ cfg logo_path file)
      = [Print ("[ERROR] Failed to load Delta logo: " ++ e)]
        ++ (if AUTO_SHUTDOWN_ENABLED cfg
            then _start_shutdown_scheduler cfg else []))
  /\ delta_logo_image
       (fst (fst (perform_all cfg calls (fst (__init__ cfg logo_path file)))))
     = None
  /\ filter is_print
       (snd (fst (perform_all cfg calls (fst (__init__ cfg logo_path file)))))
     = []
  /\ Forall (fun answer => answer = false)
       (snd (perform_all cfg calls (fst (__init__ cfg logo_path file)))).
Proof.
  intros Henabled Hfile.
  assert (Hnone : delta_logo_image (fst (__init__ cfg logo_path file)) = None).
  { unfold __init__. rewrite Henabled.
    destruct Hfile as [-> | [e ->]]; reflexivity. }
  split; [exact Hnone|].
  split; [intros ->; unfold __init__; now rewrite Henabled|].
  split; [intros e ->; unfold __init__; now rewrite Henabled|].
  now apply perform_all_without_image.
Qed.

Lemma failed_logo_load_disables_overlay_witness :
  Forall (fun answer => answer = false)
    (snd (perform_all config_py
            [call_should_show_logo 1714600000;
             call_show_delta_logo 1714600000;
             call_update_brightness (mkDateTime 2024 5 1 23 0 0);
             call_should_show_logo 1714600031]
            (fst (__init__ config_py logo_path_pi NotFound)))).
Proof.
  apply (failed_logo_load_disables_overlay config_py logo_path_pi NotFound).
  - reflexivity.
  - left; reflexivity.
Defined.

(** ** The clock scene *)

Section ClockSceneResults.

Variable strptime : string -> option Z.
Variable CLOCK_FORMAT : string.

Lemma strftime_HM_nonempty (now : DateTime) : strftime_HM now <> "".
Proof.
  unfold strftime_HM. destruct (pad2 "0" (hour now)); discriminate.
Qed.

Lemma strftime_lM_nonempty (now : DateTime) : strftime_lM now <> "".
Proof.
  unfold strftime_lM. destruct (pad2 " " (hour12 (hour now))); discriminate.
Qed.

Lemma clock_format_known :
  CLOCK_FORMAT = "12hr" \/ CLOCK_FORMAT = "24hr" ->
  exists strftime,
    clock_format CLOCK_FORMAT = Some strftime
    /\ forall now, strftime now <> "".
Proof.
  unfold clock_format. intros [-> | ->]; simpl.
  - exists strftime_lM. split; [reflexivity | apply strftime_lM_nonempty].
  - exists strftime_HM. split; [reflexivity | apply strftime_HM_nonempty].
Qed.

(** The forecast loop touches the cache and the fetch date only. *)
Lemma scan_forecast_frame (now : DateTime) (days : list Day)
      (self self1 : ClockScene) :
  scan_forecast strptime now days self = Ok self1 ->
  _last_time self1 = _last_time self
  /\ _data self1 = _data self
  /\ _last_logo_check self1 = _last_logo_check self.
Proof.
  revert self; induction days as [|day later IH]; intros self H; simpl in H.
  - now inversion H.
  - destruct (String.eqb _ _); [|now apply IH].
    unfold parse_time in H.
    destruct (strptime (sunriseTime day)); [|discriminate].
    destruct (strptime (sunsetTime day)); [|discriminate].
    simpl in H. now apply IH in H.
Qed.

Lemma scan_forecast_without_entry (now : DateTime) (days : list Day)
      (self : ClockScene) :
  forallb (fun day => negb (entry_for now day)) days = true ->
  scan_forecast strptime now days self = Ok self.
Proof.
  induction days as [|day later IH]; simpl; [reflexivity|].
  intros H; apply andb_prop in H as [Hday Hlater].
  unfold entry_for in Hday. apply negb_true_iff in Hday.
  rewrite Hday. now apply IH.
Qed.

Lemma calculate_sunrise_sunset_frame (r : Readings) (self self1 : ClockScene)
      (cached : option Z * option Z) :
  calculate_sunrise_sunset strptime r self = Ok (self1, cached) ->
  _last_time self1 = _last_time self
  /\ _data self1 = _data self
  /\ _last_logo_check self1 = _last_logo_check self
  /\ cached = (today_sunrise self1, today_sunset self1).
Proof.
  unfold calculate_sunrise_sunset.
  destruct (negb (same_date _ _)).
  - destruct (forecast r) as [e| |days]; try discriminate.
    destruct (scan_forecast strptime (fetch_now r) days self) as [s|e] eqn:E;
      [|discriminate].
    simpl. intros [= <- <-].
    apply scan_forecast_frame in E. tauto.
  - intros [= <- <-]. tauto.
Qed.

(** What [clock] does once the format is known and both sun times are
    there. *)
Lemma clock_run (r : Readings) (self self1 : ClockScene)
      (strftime : DateTime -> string) (sunrise sunset : Z) :
  _data self = [] ->
  clock_format CLOCK_FORMAT = Some strftime ->
  calculate_sunrise_sunset strptime r self
  = Ok (self1, (Some sunrise, Some sunset)) ->
  clock strptime CLOCK_FORMAT r self
  = Ok ({| _last_logo_check := _last_logo_check self1;
           _last_time := Some (strftime (clock_now r));
           today_sunrise := today_sunrise self1;
           today_sunset := today_sunset self1;
           last_fetch_date := last_fetch_date self1;
           _data := _data self1 |},
        match _last_time self with
        | Some last =>
            if truthy (Some last)
            then [DrawText CLOCK_FONT 0 11 BLACK last]
            else []
        | None => []
        end
        ++ [DrawText CLOCK_FONT 0 11
                     (clock_color (sunrise - utcnow_sunrise r)
                                  (sunset - utcnow_sunset r))
                     (strftime (clock_now r))]).
Proof.
  intros Hdata Hformat Hsun. unfold clock.
  rewrite Hdata, Hformat, Hsun. simpl.
  apply calculate_sunrise_sunset_frame in Hsun as (-> & _). reflexivity.
Qed.


Lemma clock_color_cases (sunrise sunset now_sunrise now_sunset : Z) :
  (sunset <= now_sunset ->
   clock_color (sunrise - now_sunrise) (sunset - now_sunset) = NIGHT_COLOUR)
  /\ (sunrise <= now_sunrise -> now_sunset < sunset ->
      clock_color (sunrise - now_sunrise) (sunset - now_sunset) = DAY_COLOUR)
  /\ (now_sunrise < sunrise -> now_sunset < sunset ->
      clock_color (sunrise - now_sunrise) (sunset - now_sunset)
      = NIGHT_COLOUR).
Proof.
  unfold clock_color.
  destruct (Z.leb_spec (sunset - now_sunset) 0),
           (Z.leb_spec (sunrise - now_sunrise) 0);
    repeat split; intros; try reflexivity; lia.
Qed.

End ClockSceneResults.



(** C10.  With no flight data, a known clock format and both sun times at
    hand, the colour of the time [clock] draws is the night colour when the
    UTC reading is at or past sunset, the day colour when it is at or past
    sunrise and before sunset, and the night colour when it is before both.
    The code reads the UTC clock once for each comparison. *)
Theorem clock_colour_follows_sun
        (strptime : string -> option Z) (CLOCK_FORMAT : string)
        (r : Readings) (self self1 : ClockScene) (sunrise sunset : Z) :
  _data self = [] ->
  CLOCK_FORMAT = "12hr" \/ CLOCK_FORMAT = "24hr" ->
  calculate_sunrise_sunset strptime r self
  = Ok (self1, (Some sunrise, Some sunset)) ->
  exists self' erase colour current_time,
    clock strptime CLOCK_FORMAT r self
    = Ok (self',
          erase ++ [DrawText CLOCK_FONT (fst CLOCK_POSITION)
                             (snd CLOCK_POSITION) colour current_time])
    /\ filter (fun e => negb (is_draw_text e)) erase = []
    /\ Forall (fun e => forall font x y c text,
                   e = DrawText font x y c text -> c = BLACK) erase
    /\ (sunset <= utcnow_sunset r -> colour = NIGHT_COLOUR)
    /\ (sunrise <= utcnow_sunrise r -> utcnow_sunset r < sunset ->
        colour = DAY_COLOUR)
    /\ (utcnow_sunrise r < sunrise -> utcnow_sunset r < sunset ->
        colour = NIGHT_COLOUR).
Proof.
  intros Hdata Hformat Hsun.
  destruct (clock_format_known _ Hformat) as (strftime & Hknown & _).
  rewrite (clock_run _ _ _ _ _ _ _ _ Hdata Hknown Hsun).
  eexists _, _, _, _. split; [reflexivity|].
  split; [|split; [|apply clock_color_cases]].
  - destruct (_last_time self) as [last|]; [|reflexivity].
    destruct (truthy (Some last)); reflexivity.
  - destruct (_last_time self) as [last|]; [|constructor].
    destruct (truthy (Some last)); constructor; [|constructor].
    now intros font x y c text [= _ _ _ <- _].
Qed.

Lemma clock_colour_follows_sun_witness :
  exists self' erase colour current_time,
    clock strptime_iso "24hr" (readings_2_may (grab_returns forecast_1_may))
          scene_after_1_may
    = Ok (self', erase ++ [DrawText CLOCK_FONT 0 11 colour current_time])
    /\ colour = DAY_COLOUR.
Proof.
  destruct (clock_colour_follows_sun strptime_iso "24hr"
              (readings_2_may (grab_returns forecast_1_may))
              scene_after_1_may
              {| _last_logo_check := 0;
                 _last_time := Some "23:59";
                 today_sunrise := Some 1714624140000000;
                 today_sunset := Some 1714679400000000;
                 last_fetch_date := Some (2024, 5, 2);
                 _data := [] |}
              1714624140000000 1714679400000000)
    as (self' & erase & colour & current_time & Hclock & _ & _ & _ & Hday & _).
  - reflexivity.
  - right; reflexivity.
  - reflexivity.
  - exists self', erase, colour, current_time. split; [exact Hclock|].
    apply Hday; simpl; lia.
Defined.

(** *** Fetch failures *)

(** Nothing in the scene catches what [grab_forecast] raises. *)
Lemma grab_forecast_exception_propagates
      (strptime : string -> option Z) (CLOCK_FORMAT : string)
      (r : Readings) (self : ClockScene) (e : Exn) :
  _data self = [] ->
  CLOCK_FORMAT = "12hr" \/ CLOCK_FORMAT = "24hr" ->
  same_date (last_fetch_date self) (date (fetch_now r)) = false ->
  forecast r = grab_raises e ->
  clock strptime CLOCK_FORMAT r self = Raise e.
Proof.
  intros Hdata Hformat Hdate Hforecast.
  destruct (clock_format_known _ Hformat) as (strftime & Hknown & _).
  unfold clock, calculate_sunrise_sunset.
  now rewrite Hdata, Hknown, Hdate, Hforecast.
Qed.

(** C7, as the code has it.  When [grab_forecast] returns a forecast with
    no entry for the current date, [calculate_sunrise_sunset] leaves the
    cache as it is and returns the cached pair; if both cached values are
    there, [clock] completes and colours the time from them.  What
    [grab_forecast] raises is not caught: it leaves [clock] as raised. *)
Theorem stale_sun_times_reused
        (strptime : string -> option Z) (CLOCK_FORMAT : string)
        (r : Readings) (self : ClockScene) :
  _data self = [] ->
  CLOCK_FORMAT = "12hr" \/ CLOCK_FORMAT = "24hr" ->
  (forall days sunrise sunset,
      forecast r = grab_returns days ->
      forallb (fun day => negb (entry_for (fetch_now r) day)) days = true ->
      today_sunrise self = Some sunrise ->
      today_sunset self = Some sunset ->
      calculate_sunrise_sunset strptime r self
      = Ok (self, (Some sunrise, Some sunset))
      /\ exists self' erase current_time,
          clock strptime CLOCK_FORMAT r self
          = Ok (self',
                erase ++ [DrawText CLOCK_FONT (fst CLOCK_POSITION)
                                   (snd CLOCK_POSITION)
                                   (clock_color (sunrise - utcnow_sunrise r)
                                                (sunset - utcnow_sunset r))
                                   current_time])
          /\ today_sunrise self' = Some sunrise
          /\ today_sunset self' = Some sunset
          /\ last_fetch_date self' = last_fetch_date self)
  /\ (forall e,
         forecast r = grab_raises e ->
         same_date (last_fetch_date self) (date (fetch_now r)) = false ->
         clock strptime CLOCK_FORMAT r self = Raise e).
Proof.
  intros Hdata Hformat. split.
  - intros days sunrise sunset Hforecast Hnone Hsunrise Hsunset.
    assert (Hsun : calculate_sunrise_sunset strptime r self
                   = Ok (self, (Some sunrise, Some sunset))).
    { unfold calculate_sunrise_sunset. rewrite Hforecast.
      rewrite (scan_forecast_without_entry _ _ _ _ Hnone). simpl.
      rewrite Hsunrise, Hsunset. now destruct (negb _). }
    split; [exact Hsun|].
    destruct (clock_format_known _ Hformat) as (strftime & Hknown & _).
    rewrite (clock_run _ _ _ _ _ _ _ _ Hdata Hknown Hsun).
    eexists (mkClockScene _ _ (today_sunrise self) (today_sunset self)
                          (last_fetch_date self) _), _, _.
    split; [reflexivity|]. simpl. auto.
  - intros e Hforecast Hdate.
    now apply grab_forecast_exception_propagates.
Qed.

Lemma stale_sun_times_reused_witness :
  exists self' erase current_time,
    clock strptime_iso "24hr"
          (readings_2_may (grab_returns forecast_without_today))
          scene_after_1_may
    = Ok (self',
          erase ++ [DrawText CLOCK_FONT 0 11
                             (clock_color
                                (1714537860000000 - 1714651200000000)
                                (1714592880000000 - 1714651200000020))
                             current_time])
    /\ today_sunrise self' = Some 1714537860000000
    /\ today_sunset self' = Some 1714592880000000
    /\ last_fetch_date self' = Some (2024, 5, 1).
Proof.
  refine (proj2 (proj1 (stale_sun_times_reused strptime_iso "24hr"
                   (readings_2_may (grab_returns forecast_without_today))
                   scene_after_1_may _ _)
                 forecast_without_today 1714537860000000 1714592880000000
                 _ _ _ _)).
  - reflexivity.
  - right; reflexivity.
  - reflexivity.
  - reflexivity.
  - reflexivity.
  - reflexivity.
Defined.

(** C7, as stated, fails twice over.  On 2 May, with the sun times of
    1 May in the cache, a [grab_forecast] that raises makes [clock] raise;
    and on a scene that never fetched, a forecast without an entry for the
    day makes [clock] raise [TypeError]. *)
Lemma fetch_failure_raises :
  _data scene_after_1_may = []
  /\ today_sunrise scene_after_1_may = Some 1714537860000000
  /\ today_sunset scene_after_1_may = Some 1714592880000000
  /\ clock strptime_iso "24hr"
           (readings_2_may (grab_raises (FetchError "connection refused")))
           scene_after_1_may
     = Raise (FetchError "connection refused")
  /\ forallb (fun day => negb (entry_for (mkDateTime 2024 5 2 12 0 0) day))
             forecast_without_today = true
  /\ clock strptime_iso "24hr"
           (readings_2_may (grab_returns forecast_without_today))
           ClockScene__init__
     = Raise TypeError.
Proof. repeat split. Qed.

(** ** Further properties of the display driver *)

(** X1.  Once [update_brightness] has run, running it again at any reading
    of the same hour writes nothing to the matrix and leaves the display as
    it is. *)
Theorem update_brightness_idempotent
        (cfg : Config) (now again : DateTime) (self : Display) :
  hour again = hour now ->
  update_brightness cfg again (fst (update_brightness cfg now self))
  = (fst (update_brightness cfg now self), []).
Proof.
  intros Hhour. unfold update_brightness at 1.
  rewrite update_brightness_applies_target, Hhour, Z.eqb_refl. reflexivity.
Qed.

Lemma update_brightness_idempotent_witness :
  update_brightness config_py (mkDateTime 2024 5 1 23 45 10)
    (fst (update_brightness config_py (mkDateTime 2024 5 1 23 0 0)
                            display_with_logo))
  = (fst (update_brightness config_py (mkDateTime 2024 5 1 23 0 0)
                            display_with_logo), []).
Proof.
  apply (update_brightness_idempotent config_py).
  reflexivity.
Defined.

(** X2.  A dim window whose start and end hour are equal is empty: the
    display is at the normal brightness after [update_brightness], at every
    hour. *)
Theorem equal_dim_hours_never_dim
        (cfg : Config) (now : DateTime) (self : Display) :
  DIM_START cfg = DIM_END cfg ->
  matrix_brightness (fst (update_brightness cfg now self)) = BRIGHTNESS cfg.
Proof.
  intros Hequal. rewrite update_brightness_applies_target.
  apply (target_cases cfg (hour now) _ (is_dim_plain cfg (hour now) ltac:(lia))).
  lia.
Qed.

Lemma equal_dim_hours_never_dim_witness :
  matrix_brightness
    (fst (update_brightness config_8_8 (mkDateTime 2024 5 1 8 0 0)
                            display_with_logo))
  = BRIGHTNESS config_8_8.
Proof.
  apply (equal_dim_hours_never_dim config_8_8).
  reflexivity.
Defined.

Section DisplayInvariants.

Variable cfg : Config.

Lemma target_is_a_level (h : Z) :
  target cfg h = BRIGHTNESS cfg \/ target cfg h = DIM_BRIGHTNESS cfg.
Proof. unfold target. destruct (is_dim cfg h); auto. Qed.

Lemma perform_keeps_levels (c : Call) (self : Display) :
  matrix_brightness self = BRIGHTNESS cfg
  \/ matrix_brightness self = DIM_BRIGHTNESS cfg ->
  matrix_brightness (fst (fst (perform cfg c self))) = BRIGHTNESS cfg
  \/ matrix_brightness (fst (fst (perform cfg c self))) = DIM_BRIGHTNESS cfg.
Proof.
  intros H.
  destruct c as [ | | | | | | now | now | now]; simpl; try exact H.
  - pose proof (update_brightness_applies_target cfg now self) as E.
    destruct (update_brightness cfg now self) as [self1 events].
    simpl in *. rewrite E. apply target_is_a_level.
  - unfold show_delta_logo.
    now destruct (delta_logo_image self).
Qed.

(** An invariant of single calls is an invariant of sequences of calls. *)
Lemma perform_all_invariant (P : Display -> Prop) :
  (forall c self, P self -> P (fst (fst (perform cfg c self)))) ->
  forall calls self, P self -> P (fst (fst (perform_all cfg calls self))).
Proof.
  intros Hstep calls; induction calls as [|c later IH]; intros self H; simpl;
    [exact H|].
  specialize (Hstep c self H).
  destruct (perform cfg c self) as [[self1 events] answer]. simpl in Hstep.
  specialize (IH self1 Hstep).
  now destruct (perform_all cfg later self1) as [[self2 events'] answers].
Qed.

End DisplayInvariants.

(** X3.  No sequence of calls on a display changes its logo image: an image
    that was loaded at construction is never dropped or replaced, and an
    absent one is never loaded later. *)
Theorem logo_image_fixed_at_construction
        (cfg : Config) (calls : list Call) (self : Display) :
  delta_logo_image (fst (fst (perform_all cfg calls self)))
  = delta_logo_image self.
Proof.
  apply (perform_all_invariant cfg
           (fun d => delta_logo_image d = delta_logo_image self));
    [|reflexivity].
  intros c d Hd. now rewrite perform_keeps_image.
Qed.

(** X5.  After construction and any sequence of calls, the brightness of
    the matrix is one of the two configured levels. *)
Theorem brightness_is_a_configured_level
        (cfg : Config) (logo_path : string) (file : LogoFile)
        (calls : list Call) :
  matrix_brightness
    (fst (fst (perform_all cfg calls (fst (__init__ cfg logo_path file)))))
  = BRIGHTNESS cfg
  \/ matrix_brightness
       (fst (fst (perform_all cfg calls (fst (__init__ cfg logo_path file)))))
     = DIM_BRIGHTNESS cfg.
Proof.
  apply (perform_all_invariant cfg
           (fun d => matrix_brightness d = BRIGHTNESS cfg
                     \/ matrix_brightness d = DIM_BRIGHTNESS cfg)).
  - apply perform_keeps_levels.
  - left. unfold __init__. destruct (DELTA_LOGO_ENABLED cfg); [|reflexivity].
    now destruct file.
Qed.

(** X6.  Once [draw] has shown the logo, storing the reading [shown_at],
    [should_show_logo] answers true at a later reading exactly when that
    reading is at least the configured interval after [shown_at]: two
    showings are never closer than the interval. *)
Theorem overlay_spacing
        (cfg : Config) (now shown_at later : Z) (display : Display) :
  should_show_logo cfg now display = true ->
  should_show_logo cfg later (fst (draw cfg now shown_at display)) = true
  <-> later - shown_at >= DELTA_LOGO_INTERVAL cfg.
Proof.
  intros H. unfold draw. rewrite H.
  apply should_show_logo_true in H as (Henabled & Himage & _).
  destruct (delta_logo_image display) as [image|] eqn:E; [|congruence].
  rewrite (show_delta_logo_records_time cfg shown_at display image E).
  rewrite should_show_logo_true. simpl. split.
  - now intros (_ & _ & Hgap).
  - intros Hgap. repeat split; [exact Henabled | discriminate | exact Hgap].
Qed.

Lemma overlay_spacing_witness :
  should_show_logo config_py 1714600029
    (fst (draw config_py 1714600000 1714600000 display_with_logo)) = true
  <-> 1714600029 - 1714600000 >= DELTA_LOGO_INTERVAL config_py.
Proof.
  apply (overlay_spacing config_py 1714600000 1714600000 1714600029
           display_with_logo).
  reflexivity.
Defined.

(** X7.  With [DELTA_LOGO_ENABLED] false, construction does not look at the
    logo file (it prints nothing about it and keeps no image, even when the
    file is loadable), and [draw] does nothing on any display at any time. *)
Theorem overlay_disabled_by_config
        (cfg : Config) (logo_path : string) (file : LogoFile) :
  DELTA_LOGO_ENABLED cfg = false ->
  delta_logo_image (fst (__init__ cfg logo_path file)) = None
  /\ snd (__init__ cfg logo_path file)
     = (if AUTO_SHUTDOWN_ENABLED cfg then _start_shutdown_scheduler cfg else [])
  /\ (forall now shown_at display,
         draw cfg now shown_at display = (display, [])).
Proof.
  intros Hdisabled. unfold __init__, draw, should_show_logo.
  rewrite Hdisabled. simpl. repeat split.
Qed.

Lemma overlay_disabled_by_config_witness :
  draw config_25_00 1714600000 1714600000 display_with_logo
  = (display_with_logo, []).
Proof.
  apply (overlay_disabled_by_config config_25_00 logo_path_pi
           (Loaded 64 64 delta_logo)).
  reflexivity.
Defined.

(** ** Further properties of the shutdown scheduler *)

Section ShutdownRuns.

Variables shutdown_hour shutdown_minute : Z.
Variable play : result unit.

(** A poll issues nothing, or the whole shutdown sequence. *)
Lemma poll_events (now : DateTime) (guard : bool) :
  fst (poll shutdown_hour shutdown_minute now guard) = []
  \/ (at_target shutdown_hour shutdown_minute now
      /\ guard = false
      /\ poll shutdown_hour shutdown_minute now guard
         = ([Print ("[INFO] Auto-shutdown triggered at " ++ strftime_HM now);
             Clear; SwapOnVSync; Sleep 2; System "sudo shutdown -h now"],
            true)).
Proof.
  unfold poll, at_target.
  destruct (Z.eqb_spec (hour now) shutdown_hour) as [Hh|Hh];
    destruct (Z.eqb_spec (minute now) shutdown_minute) as [Hm|Hm];
    destruct guard; simpl; auto.
Qed.

Lemma poll_off_target (now : DateTime) (guard : bool) :
  ~ at_target shutdown_hour shutdown_minute now ->
  fst (poll shutdown_hour shutdown_minute now guard) = [].
Proof.
  intros H. destruct (poll_events now guard) as [E | (Hat & _)];
    [exact E | contradiction].
Qed.

(** A run is the events of its first poll, the half-minute sleep, and the
    events of the rest, if the loop goes on. *)
Lemma shutdown_polls_step (now : DateTime) (later : list DateTime)
      (guard : bool) :
  exists rest,
    fst (shutdown_polls shutdown_hour shutdown_minute play (now :: later) guard)
    = fst (poll shutdown_hour shutdown_minute now guard) ++ [Sleep 30] ++ rest
    /\ (rest = []
        \/ rest = fst (shutdown_polls shutdown_hour shutdown_minute play later
                         (snd (poll shutdown_hour shutdown_minute now guard)))).
Proof.
  simpl. destruct (poll shutdown_hour shutdown_minute now guard)
    as [events guard'].
  destruct play as [u|e].
  - destruct (shutdown_polls _ _ _ later guard') as [rest exit] eqn:E.
    exists rest. simpl. split; [reflexivity | right; now rewrite E].
  - exists []. simpl. split; [reflexivity | now left].
Qed.

Lemma shutdown_polls_off_target (readings : list DateTime) (guard : bool) :
  Forall (fun now => ~ at_target shutdown_hour shutdown_minute now) readings ->
  filter (fun e => is_clear_commit_or_shutdown e || is_print e)
         (fst (shutdown_polls shutdown_hour shutdown_minute play readings guard))
  = [].
Proof.
  intros H; revert guard; induction H as [|now later Hnow _ IH];
    intros guard; [reflexivity|].
  destruct (shutdown_polls_step now later guard) as (rest & -> & Hrest).
  rewrite (poll_off_target _ _ Hnow). simpl.
  destruct Hrest as [-> | ->]; [reflexivity | apply IH].
Qed.

Lemma filter_none_weaken {A : Type} (p q : A -> bool) (l : list A) :
  (forall a, q a = true -> p a = true) ->
  filter p l = [] -> filter q l = [].
Proof.
  intros Hpq; induction l as [|a l IH]; simpl; [reflexivity|].
  destruct (p a) eqn:Ep; [discriminate|].
  destruct (q a) eqn:Eq; [|exact IH].
  apply Hpq in Eq. congruence.
Qed.

(** The shutdown commands of a run are bounded by the visits to the target
    minute. *)
Lemma shutdown_polls_bound (readings : list DateTime) (guard : bool) :
  (shutdown_actions
     (fst (shutdown_polls shutdown_hour shutdown_minute play readings guard))
   <= (if guard then 0 else 1) + off_minute_polls shutdown_minute readings)%nat.
Proof.
  revert guard; induction readings as [|now later IH]; intros guard;
    [destruct guard; cbn; lia|].
  destruct (shutdown_polls_step now later guard) as (rest & -> & Hrest).
  assert (Hrest' :
            (shutdown_actions rest
             <= (if snd (poll shutdown_hour shutdown_minute now guard)
                 then 0 else 1)
                + off_minute_polls shutdown_minute later)%nat).
  { destruct Hrest as [-> | ->]; [cbn; lia | apply IH]. }
  clear Hrest IH. rewrite !shutdown_actions_app.
  change (shutdown_actions [Sleep 30]) with 0%nat.
  unfold off_minute_polls in *. cbn [filter]. unfold poll in *.
  destruct (hour now =? shutdown_hour), (minute now =? shutdown_minute), guard;
    cbn in *; lia.
Qed.

Lemma shutdown_polls_clear_commit (readings : list DateTime) (guard : bool) :
  List.length
    (filter is_clear
       (fst (shutdown_polls shutdown_hour shutdown_minute play readings guard)))
  = shutdown_actions
      (fst (shutdown_polls shutdown_hour shutdown_minute play readings guard))
  /\ List.length
       (filter is_commit
          (fst (shutdown_polls shutdown_hour shutdown_minute play readings
                               guard)))
     = shutdown_actions
         (fst (shutdown_polls shutdown_hour shutdown_minute play readings
                              guard)).
Proof.
  revert guard; induction readings as [|now later IH]; intros guard;
    [split; reflexivity|].
  destruct (shutdown_polls_step now later guard) as (rest & -> & Hrest).
  assert (Hrest' :
            List.length (filter is_clear rest) = shutdown_actions rest
            /\ List.length (filter is_commit rest) = shutdown_actions rest).
  { destruct Hrest as [-> | ->]; [split; reflexivity | apply IH]. }
  destruct Hrest' as [Hclear Hcommit].
  unfold shutdown_actions in *. rewrite !filter_app, !length_app.
  rewrite Hclear, Hcommit.
  destruct (poll_events now guard) as [-> | (_ & _ & ->)]; split; reflexivity.
Qed.

End ShutdownRuns.

(** X8.  While no reading shows the target hour and minute, the scheduler
    thread only sleeps: it prints nothing, and issues no clear, no commit
    and no shutdown command, however [self.play()] ends. *)
Theorem scheduler_quiet_off_target
        (cfg : Config) (max_str_digits : Z) (play : result unit)
        (readings : list DateTime)
        (shutdown_hour shutdown_minute : Z) :
  parse_shutdown_time max_str_digits (AUTO_SHUTDOWN_TIME cfg)
  = Some (shutdown_hour, shutdown_minute) ->
  Forall (fun now => ~ at_target shutdown_hour shutdown_minute now) readings ->
  filter is_clear_commit_or_shutdown (fst (_shutdown_loop cfg max_str_digits play readings))
  = []
  /\ filter is_print (fst (_shutdown_loop cfg max_str_digits play readings)) = [].
Proof.
  intros Hparse Hoff. unfold _shutdown_loop. rewrite Hparse.
  pose proof (shutdown_polls_off_target shutdown_hour shutdown_minute play
                readings false Hoff) as Hquiet.
  split; refine (filter_none_weaken _ _ _ _ Hquiet); intros e He; rewrite He;
    auto using orb_true_r.
Qed.

Lemma scheduler_quiet_off_target_witness :
  filter is_clear_commit_or_shutdown
    (fst (_shutdown_loop config_py 4300 (Ok tt)
            [mkDateTime 2024 5 1 23 29 30; mkDateTime 2024 5 1 22 30 0]))
  = []
  /\ filter is_print
       (fst (_shutdown_loop config_py 4300 (Ok tt)
               [mkDateTime 2024 5 1 23 29 30; mkDateTime 2024 5 1 22 30 0]))
     = [].
Proof.
  apply (scheduler_quiet_off_target config_py 4300 (Ok tt) _ 23 30).
  - reflexivity.
  - repeat constructor; unfold at_target; simpl; lia.
Defined.

(** X9.  A configured time that reads as two integers but names no time of
    day (an hour outside 0..23 or a minute outside 0..59, as in "25:00") is
    accepted without any message, and the scheduler then never issues the
    shutdown command. *)
Theorem out_of_range_time_never_fires
        (cfg : Config) (max_str_digits : Z) (play : result unit)
        (readings : list DateTime)
        (shutdown_hour shutdown_minute : Z) :
  parse_shutdown_time max_str_digits (AUTO_SHUTDOWN_TIME cfg)
  = Some (shutdown_hour, shutdown_minute) ->
  shutdown_hour < 0 \/ 23 < shutdown_hour
  \/ shutdown_minute < 0 \/ 59 < shutdown_minute ->
  Forall time_of_day readings ->
  shutdown_actions (fst (_shutdown_loop cfg max_str_digits play readings)) = 0%nat
  /\ filter is_print (fst (_shutdown_loop cfg max_str_digits play readings)) = [].
Proof.
  intros Hparse Hrange Hreadings. unfold _shutdown_loop. rewrite Hparse.
  assert (Hoff : Forall (fun now =>
                           ~ at_target shutdown_hour shutdown_minute now)
                        readings).
  { eapply Forall_impl; [|exact Hreadings].
    intros now [Hh Hm] [Hh' Hm']. lia. }
  pose proof (shutdown_polls_off_target shutdown_hour shutdown_minute play
                readings false Hoff) as Hquiet.
  split.
  - unfold shutdown_actions.
    replace (filter is_shutdown_action
               (fst (shutdown_polls shutdown_hour shutdown_minute play
                                    readings false)))
      with (@nil Event); [reflexivity|].
    symmetry. refine (filter_none_weaken _ _ _ _ Hquiet). now intros [].
  - refine (filter_none_weaken _ _ _ _ Hquiet).
    intros e He; rewrite He; auto using orb_true_r.
Qed.

Lemma out_of_range_time_never_fires_witness :
  shutdown_actions
    (fst (_shutdown_loop config_25_00 4300 (Ok tt)
            [mkDateTime 2024 5 1 23 59 30; mkDateTime 2024 5 2 0 0 0;
             mkDateTime 2024 5 2 1 0 0]))
  = 0%nat
  /\ filter is_print
       (fst (_shutdown_loop config_25_00 4300 (Ok tt)
               [mkDateTime 2024 5 1 23 59 30; mkDateTime 2024 5 2 0 0 0;
                mkDateTime 2024 5 2 1 0 0]))
     = [].
Proof.
  apply (out_of_range_time_never_fires config_25_00 4300 (Ok tt) _ 25 0).
  - reflexivity.
  - right; left; lia.
  - repeat constructor; simpl; lia.
Defined.

(** X10.  In any run of the scheduler the shutdown command is issued at
    most once more than the number of polls that fell outside the target
    minute: it cannot be issued twice without a poll at another minute in
    between. *)
Theorem one_shutdown_per_visit
        (cfg : Config) (max_str_digits : Z) (play : result unit)
        (readings : list DateTime)
        (shutdown_hour shutdown_minute : Z) :
  parse_shutdown_time max_str_digits (AUTO_SHUTDOWN_TIME cfg)
  = Some (shutdown_hour, shutdown_minute) ->
  (shutdown_actions (fst (_shutdown_loop cfg max_str_digits play readings))
   <= 1 + off_minute_polls shutdown_minute readings)%nat.
Proof.
  intros Hparse. unfold _shutdown_loop. rewrite Hparse.
  apply (shutdown_polls_bound shutdown_hour shutdown_minute play readings false).
Qed.

Lemma one_shutdown_per_visit_witness :
  (shutdown_actions
     (fst (_shutdown_loop config_py 4300 (Ok tt)
             [mkDateTime 2024 5 1 23 30 0; mkDateTime 2024 5 1 23 30 30;
              mkDateTime 2024 5 1 23 30 59]))
   <= 1 + off_minute_polls 30
            [mkDateTime 2024 5 1 23 30 0; mkDateTime 2024 5 1 23 30 30;
             mkDateTime 2024 5 1 23 30 59])%nat.
Proof.
  apply (one_shutdown_per_visit config_py 4300 (Ok tt) _ 23 30).
  reflexivity.
Defined.

(** X11.  In any run of the scheduler, however it ends, the panel is
    cleared and committed exactly as many times as the shutdown command is
    issued: the thread never touches the canvas for any other reason. *)
Theorem scheduler_clears_only_to_shut_down
        (cfg : Config) (max_str_digits : Z) (play : result unit)
        (readings : list DateTime) :
  List.length (filter is_clear (fst (_shutdown_loop cfg max_str_digits play readings)))
  = shutdown_actions (fst (_shutdown_loop cfg max_str_digits play readings))
  /\ List.length (filter is_commit (fst (_shutdown_loop cfg max_str_digits play readings)))
     = shutdown_actions (fst (_shutdown_loop cfg max_str_digits play readings)).
Proof.
  unfold _shutdown_loop.
  destruct (parse_shutdown_time max_str_digits (AUTO_SHUTDOWN_TIME cfg)) as [[h m]|].
  - apply shutdown_polls_clear_commit.
  - split; reflexivity.
Qed.

(** Two-digit fields read back as the numbers they were printed from. *)
Lemma int_of_two_digits (max_str_digits : Z) (n : Z) :
  0 <= n < 60 -> int max_str_digits (pad2 "0" n) = Some n.
Proof.
  intros Hn.
  assert (Hall : forallb
                   (fun k => match int max_str_digits (pad2 "0" (Z.of_nat k))
                             with
                             | Some v => v =? Z.of_nat k
                             | None => false
                             end)
                   (seq 0 60) = true) by (vm_compute; reflexivity).
  rewrite forallb_forall in Hall.
  specialize (Hall (Z.to_nat n)). rewrite Z2Nat.id in Hall by lia.
  destruct (int max_str_digits (pad2 "0" n)) as [v|].
  - f_equal. apply Z.eqb_eq. apply Hall. apply in_seq. lia.
  - discriminate Hall. apply in_seq. lia.
Qed.

(** X12.  The hour and minute the scheduler prints when it fires, in the
    form [%H:%M], read back through the parsing of [AUTO_SHUTDOWN_TIME] as
    that same hour and minute: a time written as the log shows it is a
    valid setting for that time. *)
Theorem shutdown_time_round_trip (max_str_digits : Z) (now : DateTime) :
  time_of_day now ->
  parse_shutdown_time max_str_digits (strftime_HM now)
  = Some (hour now, minute now).
Proof.
  intros [Hh Hm]. apply parse_shutdown_time_Some.
  exists (pad2 "0" (hour now)), (pad2 "0" (minute now)).
  split; [reflexivity|].
  split; apply int_of_two_digits; lia.
Qed.

Lemma shutdown_time_round_trip_witness :
  parse_shutdown_time 4300 (strftime_HM (mkDateTime 2024 5 1 7 5 0))
  = Some (7, 5).
Proof.
  apply (shutdown_time_round_trip 4300 (mkDateTime 2024 5 1 7 5 0)).
  split; simpl; lia.
Defined.

(** ** Further properties of the clock scene *)

Section ClockSceneCache.

Variable strptime : string -> option Z.
Variable CLOCK_FORMAT : string.

Lemma date_eqb_refl (d : Z * Z * Z) : date_eqb d d = true.
Proof.
  destruct d as [[y m] d]. unfold date_eqb. now rewrite !Z.eqb_refl.
Qed.

(** The loop runs over a forecast piece by piece. *)
Lemma scan_forecast_app (now : DateTime) (xs ys : list Day)
      (self : ClockScene) :
  scan_forecast strptime now (xs ++ ys) self
  = bind (scan_forecast strptime now xs self)
         (scan_forecast strptime now ys).
Proof.
  revert self; induction xs as [|day later IH]; intros self; simpl;
    [reflexivity|].
  destruct (String.eqb _ _); [|apply IH].
  unfold parse_time.
  destruct (strptime (sunriseTime day)); [|reflexivity].
  destruct (strptime (sunsetTime day)); [|reflexivity].
  simpl. apply IH.
Qed.

(** After the loop the fetch date is today's, or nothing matched and the
    scene is as before. *)
Lemma scan_forecast_date (now : DateTime) (days : list Day)
      (self self1 : ClockScene) :
  scan_forecast strptime now days self = Ok self1 ->
  (existsb (entry_for now) days = true
   /\ last_fetch_date self1 = Some (date now))
  \/ (existsb (entry_for now) days = false /\ self1 = self).
Proof.
  revert self; induction days as [|day later IH]; intros self H; simpl in H.
  - right. now inversion H.
  - simpl. unfold entry_for at 1 3.
    destruct (String.eqb _ _); simpl.
    + left. split; [reflexivity|].
      unfold parse_time in H.
      destruct (strptime (sunriseTime day)); [|discriminate].
      destruct (strptime (sunsetTime day)); [|discriminate].
      simpl in H. apply IH in H as [[_ Hdate] | [_ ->]]; [exact Hdate|].
      reflexivity.
    + now apply IH.
Qed.

Lemma scan_forecast_consistent (now : DateTime) (days : list Day)
      (self self1 : ClockScene) :
  cache_consistent self ->
  scan_forecast strptime now days self = Ok self1 ->
  cache_consistent self1.
Proof.
  revert self; induction days as [|day later IH]; intros self Hc H;
    simpl in H.
  - injection H as <-. exact Hc.
  - destruct (String.eqb _ _); [|now apply (IH self)].
    unfold parse_time in H.
    destruct (strptime (sunriseTime day)); [|discriminate].
    destruct (strptime (sunsetTime day)); [|discriminate].
    simpl in H. apply IH in H; [exact H|]. exact I.
Qed.

Lemma calculate_sunrise_sunset_consistent (r : Readings)
      (self self1 : ClockScene) (cached : option Z * option Z) :
  cache_consistent self ->
  calculate_sunrise_sunset strptime r self = Ok (self1, cached) ->
  cache_consistent self1.
Proof.
  intros Hc. unfold calculate_sunrise_sunset.
  destruct (negb (same_date _ _)).
  - destruct (forecast r) as [e| |days]; try discriminate.
    destruct (scan_forecast strptime (fetch_now r) days self) as [s|e] eqn:E;
      [|discriminate].
    simpl. intros [= <- _]. now apply scan_forecast_consistent in E.
  - now intros [= <- _].
Qed.

(** What a completed call of [clock] went through. *)
Lemma clock_completed (r : Readings) (self self' : ClockScene)
      (events : list Event) :
  _data self = [] ->
  clock strptime CLOCK_FORMAT r self = Ok (self', events) ->
  exists strftime self1 sunrise sunset,
    clock_format CLOCK_FORMAT = Some strftime
    /\ calculate_sunrise_sunset strptime r self
       = Ok (self1, (Some sunrise, Some sunset)).
Proof.
  intros Hdata. unfold clock. rewrite Hdata. simpl.
  destruct (clock_format CLOCK_FORMAT) as [strftime|]; [|discriminate].
  simpl.
  destruct (calculate_sunrise_sunset strptime r self)
    as [[self1 [[sunrise|] [sunset|]]]|e]; simpl; try discriminate.
  intros _. now exists strftime, self1, sunrise, sunset.
Qed.

End ClockSceneCache.

(** X13.  The forecast loop looks only at the entries for today's date:
    entries of other dates change nothing and are never parsed, so the loop
    over a forecast is the loop over its entries for today. *)
Theorem forecast_entries_of_other_dates_ignored
        (strptime : string -> option Z) (now : DateTime) (days : list Day)
        (self : ClockScene) :
  scan_forecast strptime now days self
  = scan_forecast strptime now (filter (entry_for now) days) self.
Proof.
  revert self; induction days as [|day later IH]; intros self; simpl;
    [reflexivity|].
  unfold entry_for at 1.
  destruct (String.eqb (substring 0 10 (startTime day)) (strftime_Ymd now))
    eqn:E; [|apply IH].
  simpl. rewrite E. unfold parse_time.
  destruct (strptime (sunriseTime day)); [|reflexivity].
  destruct (strptime (sunsetTime day)); [|reflexivity].
  simpl. apply IH.
Qed.

(** X14.  The loop has no [break]: when several entries are for today's
    date, the cache ends up with the sun times of the last of them. *)
Theorem last_entry_for_today_wins
        (strptime : string -> option Z) (now : DateTime)
        (before after : list Day) (day : Day) (self self1 : ClockScene) :
  entry_for now day = true ->
  forallb (fun d => negb (entry_for now d)) after = true ->
  scan_forecast strptime now (before ++ day :: after) self = Ok self1 ->
  today_sunrise self1 = strptime (sunriseTime day)
  /\ today_sunset self1 = strptime (sunsetTime day)
  /\ last_fetch_date self1 = Some (date now).
Proof.
  intros Hday Hafter. rewrite scan_forecast_app.
  destruct (scan_forecast strptime now before self) as [mid|e];
    [|discriminate].
  simpl. unfold entry_for in Hday. rewrite Hday. unfold parse_time.
  destruct (strptime (sunriseTime day)); [|discriminate].
  destruct (strptime (sunsetTime day)); [|discriminate].
  simpl. rewrite (scan_forecast_without_entry _ _ _ _ Hafter).
  now intros [= <-].
Qed.

Lemma last_entry_for_today_wins_witness :
  today_sunrise
    (match scan_forecast strptime_iso (mkDateTime 2024 5 2 12 0 0)
             forecast_two_entries ClockScene__init__ with
     | Ok self1 => self1
     | Raise _ => ClockScene__init__
     end)
  = strptime_iso "2024-05-02T04:30:00Z".
Proof.
  refine (proj1 (last_entry_for_today_wins strptime_iso
                   (mkDateTime 2024 5 2 12 0 0)
                   (firstn 2 forecast_two_entries) (skipn 3 forecast_two_entries)
                   (mkDay "2024-05-02T17:00:00Z" "2024-05-02T04:30:00Z"
                          "2024-05-02T19:51:00Z")
                   ClockScene__init__ _ _ _ _)).
  - reflexivity.
  - reflexivity.
  - reflexivity.
Defined.

(** X15.  The forecast is asked for at most once per calendar date: after a
    call that found an entry for today, every later call on that date
    returns the same scene and the same sun times without consulting
    [grab_forecast], whatever it would answer, even an exception. *)
Theorem forecast_fetched_once_per_date
        (strptime : string -> option Z) (r again : Readings)
        (days : list Day) (self self1 : ClockScene)
        (cached : option Z * option Z) :
  forecast r = grab_returns days ->
  existsb (entry_for (fetch_now r)) days = true ->
  same_date (last_fetch_date self) (date (fetch_now r)) = false ->
  calculate_sunrise_sunset strptime r self = Ok (self1, cached) ->
  date (fetch_now again) = date (fetch_now r) ->
  calculate_sunrise_sunset strptime again self1 = Ok (self1, cached).
Proof.
  intros Hforecast Hentry Hstale Hfirst Hdate.
  pose proof Hfirst as Hframe.
  apply (calculate_sunrise_sunset_frame strptime "") in Hframe
    as (_ & _ & _ & ->).
  assert (Hfetched : last_fetch_date self1 = Some (date (fetch_now r))).
  { unfold calculate_sunrise_sunset in Hfirst.
    rewrite Hstale, Hforecast in Hfirst. simpl in Hfirst.
    destruct (scan_forecast strptime (fetch_now r) days self) as [s|e] eqn:E;
      [|discriminate].
    simpl in Hfirst. injection Hfirst as <-.
    apply scan_forecast_date in E as [[_ Hd] | [Hnone _]];
      [exact Hd | congruence]. }
  unfold calculate_sunrise_sunset.
  rewrite Hfetched, Hdate. unfold same_date. now rewrite date_eqb_refl.
Qed.

Lemma forecast_fetched_once_per_date_witness :
  calculate_sunrise_sunset strptime_iso
    (readings_2_may (grab_raises (FetchError "connection refused")))
    scene_on_2_may
  = Ok (scene_on_2_may, (Some 1714624140000000, Some 1714679400000000)).
Proof.
  apply (forecast_fetched_once_per_date strptime_iso
           (readings_2_may (grab_returns forecast_1_may))
           (readings_2_may (grab_raises (FetchError "connection refused")))
           forecast_1_may scene_after_1_may).
  - reflexivity.
  - reflexivity.
  - reflexivity.
  - reflexivity.
  - reflexivity.
Defined.

Section ClockSceneErrors.

Variable strptime : string -> option Z.
Variable CLOCK_FORMAT : string.


Lemma scan_forecast_broken (now : DateTime) (before after : list Day)
      (day : Day) (self : ClockScene) :
  forallb (fun d => negb (entry_for now d)) before = true ->
  entry_for now day = true ->
  strptime (sunriseTime day) = None \/ strptime (sunsetTime day) = None ->
  scan_forecast strptime now (before ++ day :: after) self = Raise ValueError.
Proof.
  intros Hbefore Hday Hbroken. rewrite scan_forecast_app.
  rewrite (scan_forecast_without_entry _ _ _ _ Hbefore). simpl.
  unfold entry_for in Hday. rewrite Hday. unfold parse_time.
  destruct Hbroken as [-> | ->]; [reflexivity|].
  now destruct (strptime (sunriseTime day)).
Qed.

End ClockSceneErrors.

(** X16.  When the forecast has to be fetched and its first entry for
    today's date carries a sunrise or sunset text that [strptime] rejects,
    [clock] raises [ValueError]: nothing is drawn. *)
Theorem broken_sun_time_raises
        (strptime : string -> option Z) (CLOCK_FORMAT : string)
        (r : Readings) (self : ClockScene)
        (before after : list Day) (day : Day) :
  _data self = [] ->
  CLOCK_FORMAT = "12hr" \/ CLOCK_FORMAT = "24hr" ->
  same_date (last_fetch_date self) (date (fetch_now r)) = false ->
  forecast r = grab_returns (before ++ day :: after) ->
  forallb (fun d => negb (entry_for (fetch_now r) d)) before = true ->
  entry_for (fetch_now r) day = true ->
  strptime (sunriseTime day) = None \/ strptime (sunsetTime day) = None ->
  clock strptime CLOCK_FORMAT r self = Raise ValueError.
Proof.
  intros Hdata Hformat Hstale Hforecast Hbefore Hday Hbroken.
  destruct (clock_format_known _ Hformat) as (strftime & Hknown & _).
  unfold clock, calculate_sunrise_sunset.
  rewrite Hdata, Hknown, Hstale, Hforecast. simpl.
  now rewrite (scan_forecast_broken strptime _ _ _ _ _ Hbefore Hday Hbroken).
Qed.

Lemma broken_sun_time_raises_witness :
  clock strptime_iso "24hr" (readings_2_may (grab_returns forecast_broken_today))
        scene_after_1_may
  = Raise ValueError.
Proof.
  apply (broken_sun_time_raises strptime_iso "24hr"
           (readings_2_may (grab_returns forecast_broken_today))
           scene_after_1_may
           (firstn 1 forecast_broken_today) []
           (mkDay "2024-05-02T05:00:00Z" "04:29" "2024-05-02T19:50:00Z")).
  - reflexivity.
  - right; reflexivity.
  - reflexivity.
  - reflexivity.
  - reflexivity.
  - reflexivity.
  - left; reflexivity.
Defined.

(** X17.  With no flight data and a [CLOCK_FORMAT] that is neither "12hr"
    nor "24hr", [clock] raises [UnboundLocalError] before it asks for the
    forecast or draws anything. *)
Theorem unknown_clock_format_raises
        (strptime : string -> option Z) (CLOCK_FORMAT : string)
        (r : Readings) (self : ClockScene) :
  _data self = [] ->
  CLOCK_FORMAT <> "12hr" ->
  CLOCK_FORMAT <> "24hr" ->
  clock strptime CLOCK_FORMAT r self = Raise UnboundLocalError.
Proof.
  intros Hdata H12 H24. unfold clock, clock_format. rewrite Hdata.
  apply String.eqb_neq in H12, H24. now rewrite H12, H24.
Qed.

Lemma unknown_clock_format_raises_witness :
  clock strptime_iso "12" (readings_2_may (grab_returns forecast_1_may))
        scene_after_1_may
  = Raise UnboundLocalError.
Proof.
  apply (unknown_clock_format_raises strptime_iso "12").
  - reflexivity.
  - discriminate.
  - discriminate.
Defined.



(** X19.  The sunrise, the sunset and the fetch date of the scene are
    filled together: if they are all absent or all present before a call of
    [clock] that completes, they are so after it.  They are all absent in a
    new scene, so [clock] never sees one sun time without the other. *)
Theorem cache_filled_together
        (strptime : string -> option Z) (CLOCK_FORMAT : string)
        (r : Readings) (self self' : ClockScene) (events : list Event) :
  cache_consistent self ->
  clock strptime CLOCK_FORMAT r self = Ok (self', events) ->
  cache_consistent ClockScene__init__ /\ cache_consistent self'.
Proof.
  intros Hc Hclock. split; [exact I|].
  destruct (_data self) as [|flight flights] eqn:Hdata.
  - destruct (clock_completed _ _ _ _ _ _ Hdata Hclock)
      as (strftime & self1 & sunrise & sunset & Hknown & Hsun).
    rewrite (clock_run _ _ _ _ _ _ _ _ Hdata Hknown Hsun) in Hclock.
    injection Hclock as <- _.
    apply calculate_sunrise_sunset_consistent in Hsun; [|exact Hc].
    exact Hsun.
  - unfold clock in Hclock. rewrite Hdata in Hclock. simpl in Hclock.
    injection Hclock as <- _. exact Hc.
Qed.

Lemma cache_filled_together_witness :
  cache_consistent ClockScene__init__ /\ cache_consistent scene_on_2_may.
Proof.
  apply (cache_filled_together strptime_iso "24hr"
           (readings_2_may (grab_returns forecast_1_may))
           scene_after_1_may
           {| _last_logo_check := 0;
              _last_time := Some "12:00";
              today_sunrise := Some 1714624140000000;
              today_sunset := Some 1714679400000000;
              last_fetch_date := Some (2024, 5, 2);
              _data := [] |}
           [DrawText CLOCK_FONT 0 11 BLACK "23:59";
            DrawText CLOCK_FONT 0 11 LIGHT_ORANGE "12:00"]).
  - exact I.
  - reflexivity.
Defined.
